(** * us_prediction: record lookup and output shaping ([app.py])

    A shallow embedding of [load_dataframe], [build_prediction_output] and
    the two request handlers [on_predict] and [result_page], together with
    the part of pandas / NumPy / json semantics those functions rely on.

    Conventions of the model.
    - A Python [int] is a [Z]; a [str] is a [string] (its UTF-8 bytes).
    - A binary64 float is modelled by its value ([Float64.float64]): NaN,
      a signed infinity, or the dyadic number [m * 2^e].  The sign of zero
      is not tracked; none of the modelled operations looks at it.
    - A [DataFrame] is what [pd.read_csv] returns: named, typed columns and
      the rows in file order.  The dtypes are the four that [read_csv]
      infers from plain CSV text (int64, float64, bool, object).
    - Python exceptions are values of [exn]; a function that may raise
      returns a [result].
    - The request handlers return their response together with the list of
      calls they made to [build_prediction_output]. *)

From Stdlib Require Import ZArith List String Ascii Bool Lia Permutation.
From Stdlib Require Import DecimalString.
Import ListNotations.
Set Warnings "-register-all".
Local Open Scope string_scope.
Local Open Scope list_scope.
Local Open Scope Z_scope.

(* ------------------------------------------------------------------ *)
(** ** Binary64 values *)

Module Float64.

Inductive float64 : Type :=
| FNaN
| FInf (neg : bool)
| FNum (m e : Z).


(** Number of bits of a non-negative integer. *)
Definition bit_length (a : Z) : Z :=
  if a =? 0 then 0 else Z.log2 a + 1.

(** Conversion of an integer to the nearest binary64 (ties to even):
    53 bits of mantissa are kept.  [None] stands for the [OverflowError]
    of [float(n)] when the rounded magnitude reaches [2^1024]. *)
Definition of_Z (z : Z) : option float64 :=
  let a := Z.abs z in
  let k := bit_length a - 53 in
  if k <=? 0 then Some (FNum z 0)
  else
    let q := a / 2 ^ k in
    let r := a mod 2 ^ k in
    let half := 2 ^ (k - 1) in
    let q' := if (half <? r) || ((r =? half) && Z.odd q) then q + 1 else q in
    if 1024 <? bit_length (q' * 2 ^ k) then None
    else Some (FNum (Z.sgn z * q') k).

(** [int(f)] for the finite float [m * 2^e]: truncation toward zero. *)
Definition trunc (m e : Z) : Z :=
  if 0 <=? e then m * 2 ^ e else Z.quot m (2 ^ (- e)).

(** IEEE equality of two floats. *)
Definition eqb (f g : float64) : bool :=
  match f, g with
  | FInf s, FInf t => Bool.eqb s t
  | FNum m1 e1, FNum m2 e2 =>
      let e0 := Z.min e1 e2 in
      m1 * 2 ^ (e1 - e0) =? m2 * 2 ^ (e2 - e0)
  | _, _ => false
  end.

(** Python's exact comparison [f == n] of a float with an int. *)
Definition eqb_Z (f : float64) (z : Z) : bool :=
  match f with
  | FNum m e => if 0 <=? e then m * 2 ^ e =? z else m =? z * 2 ^ (- e)
  | _ => false
  end.

(** The float denotes exactly the integer [z]. *)
Definition is_int (f : float64) (z : Z) : Prop :=
  match f with
  | FNum m e => 0 <= e /\ m * 2 ^ e = z \/ e < 0 /\ m = z * 2 ^ (- e)
  | _ => False
  end.

End Float64.
Export Float64.

(* ------------------------------------------------------------------ *)
(** ** Python values, exceptions, JSON-shaped data *)

Inductive exn : Type :=
| FileNotFoundError (msg : string)
| ValueError (msg : string)
| OverflowError (msg : string)
| ParserError (msg : string).

(** [str(exc)] for an exception built from one message. *)
Definition exn_str (e : exn) : string :=
  match e with
  | FileNotFoundError m | ValueError m | OverflowError m | ParserError m => m
  end.

Inductive result (A : Type) : Type :=
| Ok (a : A)
| Raise (e : exn).
Arguments Ok {A} a.
Arguments Raise {A} e.

Definition bind {A B} (r : result A) (k : A -> result B) : result B :=
  match r with Ok a => k a | Raise e => Raise e end.

Declare Scope py_scope.
Notation "x <- c ;; k" := (bind c (fun x => k))
  (at level 61, c at next level, right associativity) : py_scope.
Local Open Scope py_scope.

(** Built-in Python data as the handlers hand it to [jsonify]:
    [None], [bool], [int], [float], [str], [list] and [dict] (a [dict]
    keeps insertion order and has string keys here). *)
Inductive json : Type :=
| JNull
| JBool (b : bool)
| JInt (z : Z)
| JFloat (f : float64)
| JStr (s : string)
| JList (l : list json)
| JDict (kvs : list (string * json)).

Definition json_scalar (v : json) : bool :=
  match v with JList _ | JDict _ => false | _ => true end.

Fixpoint assoc {A} (k : string) (kvs : list (string * A)) : option A :=
  match kvs with
  | [] => None
  | (k', v) :: tl => if (k =? k')%string then Some v else assoc k tl
  end.

(** [d[k]] / [d.get(k)] on a dict. *)
Definition json_get (k : string) (v : json) : option json :=
  match v with JDict kvs => assoc k kvs | _ => None end.

(** [str(n)] / [f"{n}"] for an int: decimal digits, ['-'] when negative. *)
Definition str_of_int (z : Z) : string :=
  NilZero.string_of_int (Z.to_int z).

(** [needle in hay] on strings. *)
Definition contains (needle hay : string) : Prop :=
  exists pre post, hay = (pre ++ needle ++ post)%string.

(** What the interpreter and the libraries contribute and [app.py] does
    not define: the directory the application lives in, [int(s)] on a
    string ([None] is its [ValueError]), [repr(s)], and the float that
    survives pandas' ten-digit JSON text followed by [json.loads]. *)
Class PyRuntime : Type := {
  APP_ROOT : string;
  int_of_str : string -> option Z;
  repr_str : string -> string;
  json_double : float64 -> float64
}.

(* ------------------------------------------------------------------ *)
(** ** The pandas operations [app.py] calls *)

Module Pandas.

Inductive dtype : Type := Int64 | Float64 | Bool | Object.

(** A scalar stored in a frame or taken out of it. *)
Inductive cell : Type :=
| VInt (z : Z)
| VFloat (f : float64)
| VBool (b : bool)
| VStr (s : string).

Record DataFrame : Type := {
  schema : list (string * dtype);
  rows : list (list cell)
}.

(** [df.columns] *)
Definition columns (df : DataFrame) : list string := map fst (schema df).

Definition dtypes (df : DataFrame) : list dtype := map snd (schema df).

(** [name in df.columns] *)
Definition has_column (name : string) (df : DataFrame) : bool :=
  existsb (String.eqb name) (columns df).

Definition cell_has_dtype (d : dtype) (c : cell) : bool :=
  match d, c with
  | Int64, VInt z => (- 2 ^ 63 <=? z) && (z <? 2 ^ 63)
  | Float64, VFloat _ => true
  | Bool, VBool _ => true
  | Object, _ => true
  | _, _ => false
  end.

Fixpoint row_has_dtypes (ds : list dtype) (r : list cell) : bool :=
  match ds, r with
  | [], [] => true
  | d :: ds', c :: r' => cell_has_dtype d c && row_has_dtypes ds' r'
  | _, _ => false
  end.

Fixpoint nodupb (l : list string) : bool :=
  match l with
  | [] => true
  | x :: tl => negb (existsb (String.eqb x) tl) && nodupb tl
  end.

(** The shape every frame produced by [pd.read_csv] has: header names are
    made unique by the reader, every row has one cell per column, and each
    cell has the dtype of its column. *)
Definition well_formed (df : DataFrame) : bool :=
  nodupb (columns df) && forallb (row_has_dtypes (dtypes df)) (rows df).

(** The cell of row [r] in column [name]. *)
Definition row_get (df : DataFrame) (name : string) (r : list cell)
  : option cell :=
  assoc name (combine (columns df) r).

(** Python's [c == n] for a scalar and an int. *)
Definition py_eq_int (c : cell) (n : Z) : bool :=
  match c with
  | VInt z => z =? n
  | VFloat f => Float64.eqb_Z f n
  | VBool b => Z.b2z b =? n
  | VStr _ => false
  end.

(** One element of [df[name] == n].  In a float64 column NumPy compares
    with [n] converted to binary64 ([nf]); elsewhere the comparison is
    exact. *)
Definition elem_eq (d : dtype) (n : Z) (nf : float64) (c : cell) : bool :=
  match d, c with
  | Float64, VFloat f => Float64.eqb f nf
  | _, _ => py_eq_int c n
  end.

(** [df[df[name] == n]]: the rows whose [name] cell equals [n], in table
    order.  Converting [n] for a float64 column raises when [n] is beyond
    the binary64 range. *)
Definition select_eq (df : DataFrame) (name : string) (n : Z)
  : result (list (list cell)) :=
  let d := match assoc name (schema df) with Some d => d | None => Object end in
  let keep nf r :=
    match row_get df name r with
    | Some c => elem_eq d n nf c
    | None => false
    end in
  match d with
  | Float64 =>
      match Float64.of_Z n with
      | Some nf => Ok (filter (keep nf) (rows df))
      | None => Raise (OverflowError "int too large to convert to float")
      end
  | _ => Ok (filter (keep FNaN) (rows df))
  end.

Definition is_numeric (d : dtype) : bool :=
  match d with Int64 | Float64 => true | _ => false end.

Definition is_float (d : dtype) : bool :=
  match d with Float64 => true | _ => false end.

Definition to_float_cell (c : cell) : cell :=
  match c with
  | VInt z => match Float64.of_Z z with Some f => VFloat f | None => c end
  | _ => c
  end.

(** [frame.iloc[i]] returns the row as one Series, so the cells take the
    common dtype of the columns: a frame that has only int64 and float64
    columns, at least one of them float64, yields its integers as floats;
    any other mix is an object Series that keeps each cell. *)
Definition row_series (ds : list dtype) (r : list cell) : list cell :=
  if forallb is_numeric ds && existsb is_float ds
  then map to_float_cell r
  else r.

(** [frame.iloc[i].to_dict()] *)
Definition row_to_dict (df : DataFrame) (r : list cell)
  : list (string * cell) :=
  combine (columns df) (row_series (dtypes df) r).

Definition cell_is_number (c : cell) : bool :=
  match c with VInt _ | VFloat _ => true | _ => false end.

Definition cell_is_float (c : cell) : bool :=
  match c with VFloat _ => true | _ => false end.

(** [pd.Series(d)] infers a dtype from the values of the dict: integers
    next to floats (a missing value is the float NaN) become floats. *)
Definition series_of_dict (d : list (string * cell)) : list (string * cell) :=
  if forallb cell_is_number (map snd d) && existsb cell_is_float (map snd d)
  then map (fun kv => (fst kv, to_float_cell (snd kv))) d
  else d.

(** [frame.head(n)] *)
Definition head (n : nat) (df : DataFrame) : DataFrame :=
  {| schema := schema df; rows := firstn n (rows df) |}.

Section ToJson.
Context {rt : PyRuntime}.

(** One scalar written by [to_json] and read back by [json.loads]:
    NaN and the infinities are written as [null]. *)
Definition cell_to_json (c : cell) : json :=
  match c with
  | VInt z => JInt z
  | VFloat (FNum m e) => JFloat (json_double (FNum m e))
  | VFloat _ => JNull
  | VBool b => JBool b
  | VStr s => JStr s
  end.

(** [json.loads(series.to_json())]: an object keyed by the index. *)
Definition series_to_json (s : list (string * cell)) : json :=
  JDict (map (fun kv => (fst kv, cell_to_json (snd kv))) s).

(** [json.loads(frame.to_json(orient="records"))]: one object per row,
    each column written with its own dtype. *)
Definition frame_to_json_records (df : DataFrame) : json :=
  JList (map (fun r => series_to_json (combine (columns df) r)) (rows df)).

End ToJson.

End Pandas.
Export Pandas.

(* ------------------------------------------------------------------ *)
(** ** [app.py] *)

(** The state of the file system at [CSV_PATH]: no file, or a file on
    which [pd.read_csv] gives a frame or raises. *)
Inductive source : Type :=
| Absent
| Present (read_csv : result DataFrame).

Inductive response : Type :=
| JsonResponse (status : Z) (body : json)
| Redirect (location : string)
| Rendered (template : string) (context : list (string * json)).

(** A call made by a handler. *)
Inductive event : Type :=
| EvBuild (record_id : Z).

Fixpoint ends_with_slash (s : string) : bool :=
  match s with
  | EmptyString => false
  | String c EmptyString => Ascii.eqb c "/"%char
  | String _ tl => ends_with_slash tl
  end.

(** [os.path.join(a, b)] for a relative [b]. *)
Definition path_join (a b : string) : string :=
  if ends_with_slash a then (a ++ b)%string else (a ++ "/" ++ b)%string.

Section App.
Context {rt : PyRuntime}.

Definition CSV_PATH : string := path_join APP_ROOT "test.csv".

Definition load_dataframe (src : source) : result DataFrame :=
  match src with
  | Absent =>
      Raise (FileNotFoundError
        ("CSV not found at " ++ CSV_PATH
         ++ ". Run generate_csv.py to create a sample file.")%string)
  | Present read => read
  end.

(** [int(x)] on a scalar taken from a row. *)
Definition py_int (c : cell) : result Z :=
  match c with
  | VInt z => Ok z
  | VBool b => Ok (Z.b2z b)
  | VFloat FNaN => Raise (ValueError "cannot convert float NaN to integer")
  | VFloat (FInf _) =>
      Raise (OverflowError "cannot convert float infinity to integer")
  | VFloat (FNum m e) => Ok (Float64.trunc m e)
  | VStr s =>
      match int_of_str s with
      | Some z => Ok z
      | None =>
          Raise (ValueError
            ("invalid literal for int() with base 10: " ++ repr_str s)%string)
      end
  end.

(** [int(d.get(k, default))] *)
Definition int_get (d : list (string * cell)) (k : string) (default : Z)
  : result Z :=
  match assoc k d with
  | Some c => py_int c
  | None => Ok default
  end.

Definition key_factors_text : string :=
  "I think the prediction was fit because of training frequency, cardio score, and diet consistency.".

Definition narrative_text (record_id is_fit_value : Z) : string :=
  ("For the id " ++ str_of_int record_id
   ++ ", it is predicted as the person is "
   ++ (if (is_fit_value =? 1)%Z then "fit" else "not fit"))%string.

Definition build_prediction_output (src : source) (record_id : Z)
  : result json :=
  df <- load_dataframe src ;;
  if negb (has_column "id" df)
  then Raise (ValueError "CSV must contain an 'id' column")
  else
    row_match <- select_eq df "id" record_id ;;
    match row_match with
    | [] =>
        Raise (ValueError
          ("No record found for id " ++ str_of_int record_id)%string)
    | first :: _ =>
        let row_dict := row_to_dict df first in
        let row_clean := series_to_json (series_of_dict row_dict) in
        is_fit_value <- int_get row_dict "is_fit" 0 ;;
        ribbon_id <- int_get row_dict "id" record_id ;;
        Ok (JDict
          [ ("block_ribbon",
               JDict [ ("id", JInt ribbon_id); ("retrieved", row_clean) ]);
            ("block_middle_upper",
               JDict [ ("is_fit", JInt is_fit_value);
                       ("key_factors", JStr key_factors_text) ]);
            ("block_middle_lower",
               JDict [ ("table_rows", frame_to_json_records (head 10 df));
                       ("columns", JList (map JStr (columns df))) ]);
            ("block_nearest_neighbors",
               JDict [ ("Nearest neighbors", JStr "Nearest neighbors") ]);
            ("block_right",
               JDict [ ("narrative",
                        JStr (narrative_text record_id is_fit_value)) ]) ])
    end.

Definition error_body (msg : string) : json := JDict [ ("error", JStr msg) ].

(** [url_for("index")]: the listing page is routed at ["/"]. *)
Definition index_url : string := "/".

(** [GET /on_predict]; [id_param] is [request.args.get("id")]. *)
Definition on_predict (src : source) (id_param : option string)
  : response * list event :=
  match id_param with
  | None =>
      (JsonResponse 400 (error_body "Missing required query parameter 'id'"),
       [])
  | Some s =>
      match int_of_str s with
      | None => (JsonResponse 400 (error_body "'id' must be an integer"), [])
      | Some record_id =>
          match build_prediction_output src record_id with
          | Raise exc =>
              (JsonResponse 400 (error_body (exn_str exc)),
               [EvBuild record_id])
          | Ok output =>
              (JsonResponse 200 (JDict [ ("output", output) ]),
               [EvBuild record_id])
          end
      end
  end.

(** [GET /result] *)
Definition result_page (src : source) (id_param : option string)
  : response * list event :=
  match id_param with
  | None => (Redirect index_url, [])
  | Some s =>
      match int_of_str s with
      | None => (Redirect index_url, [])
      | Some record_id =>
          match build_prediction_output src record_id with
          | Raise _ => (Redirect index_url, [EvBuild record_id])
          | Ok output =>
              (Rendered "result.html" [ ("output", output) ],
               [EvBuild record_id])
          end
      end
  end.

End App.

(* ------------------------------------------------------------------ *)
(** ** The JSON text of a response

    [jsonify] writes the body with [json.dumps] (Flask's default provider
    sorts the keys of every object); a client reads it back with a JSON
    parser.  The text is modelled as its sequence of tokens: string and
    number literals are single tokens. *)

Module Json.

Inductive token : Type :=
| TLBrace | TRBrace | TLBracket | TRBracket | TColon | TComma
| TNull | TTrue | TFalse
| TInt (z : Z)
| TFloat (f : float64)
| TStr (s : string).

(** [sorted(d.items())] by key: insertion into an ordered list. *)
Fixpoint insert_item {A} (k : string) (a : A) (l : list (string * A))
  : list (string * A) :=
  match l with
  | [] => [(k, a)]
  | (k', a') :: tl =>
      if String.leb k k' then (k, a) :: l else (k', a') :: insert_item k a tl
  end.

Fixpoint sort_items {A} (l : list (string * A)) : list (string * A) :=
  match l with
  | [] => []
  | (k, a) :: tl => insert_item k a (sort_items tl)
  end.

Fixpoint join_tokens (parts : list (list token)) : list token :=
  match parts with
  | [] => []
  | [p] => p
  | p :: tl => p ++ TComma :: join_tokens tl
  end.

Definition member_tokens (kv : string * list token) : list token :=
  TStr (fst kv) :: TColon :: snd kv.

(** [json.dumps(v, sort_keys=True)] *)
Fixpoint dumps (v : json) : list token :=
  match v with
  | JNull => [TNull]
  | JBool true => [TTrue]
  | JBool false => [TFalse]
  | JInt z => [TInt z]
  | JFloat f => [TFloat f]
  | JStr s => [TStr s]
  | JList l => TLBracket :: join_tokens (map dumps l) ++ [TRBracket]
  | JDict kvs =>
      TLBrace
      :: join_tokens
           (map member_tokens
              (sort_items (map (fun kv => (fst kv, dumps (snd kv))) kvs)))
      ++ [TRBrace]
  end.

(** [d[k] = v] on a dict in insertion order. *)
Fixpoint dict_set (k : string) (v : json) (d : list (string * json))
  : list (string * json) :=
  match d with
  | [] => [(k, v)]
  | (k', v') :: tl =>
      if (k =? k')%string then (k, v) :: tl else (k', v') :: dict_set k v tl
  end.

(** The dict a parser builds from the members of an object, in order. *)
Definition dict_of_items (items : list (string * json))
  : list (string * json) :=
  fold_left (fun d kv => dict_set (fst kv) (snd kv) d) items [].

(** Recursive-descent parser; [n] bounds the number of nested calls. *)
Fixpoint parse_value (n : nat) (ts : list token)
  : option (json * list token) :=
  match n with
  | O => None
  | S n' =>
      match ts with
      | TNull :: r => Some (JNull, r)
      | TTrue :: r => Some (JBool true, r)
      | TFalse :: r => Some (JBool false, r)
      | TInt z :: r => Some (JInt z, r)
      | TFloat f :: r => Some (JFloat f, r)
      | TStr s :: r => Some (JStr s, r)
      | TLBracket :: TRBracket :: r => Some (JList [], r)
      | TLBracket :: r =>
          match parse_elements n' r with
          | Some (l, r') => Some (JList l, r')
          | None => None
          end
      | TLBrace :: TRBrace :: r => Some (JDict [], r)
      | TLBrace :: r =>
          match parse_members n' r with
          | Some (items, r') => Some (JDict (dict_of_items items), r')
          | None => None
          end
      | _ => None
      end
  end
with parse_elements (n : nat) (ts : list token)
  : option (list json * list token) :=
  match n with
  | O => None
  | S n' =>
      match parse_value n' ts with
      | Some (v, TComma :: r) =>
          match parse_elements n' r with
          | Some (l, r') => Some (v :: l, r')
          | None => None
          end
      | Some (v, TRBracket :: r) => Some ([v], r)
      | _ => None
      end
  end
with parse_members (n : nat) (ts : list token)
  : option (list (string * json) * list token) :=
  match n with
  | O => None
  | S n' =>
      match ts with
      | TStr k :: TColon :: r =>
          match parse_value n' r with
          | Some (v, TComma :: r') =>
              match parse_members n' r' with
              | Some (items, r'') => Some ((k, v) :: items, r'')
              | None => None
              end
          | Some (v, TRBrace :: r') => Some ([(k, v)], r')
          | _ => None
          end
      | _ => None
      end
  end.

(** [json.loads]: the whole text must be one value.  A text of [n] tokens
    never needs more than [n] nested calls. *)
Definition loads (ts : list token) : option json :=
  match parse_value (S (List.length ts)) ts with
  | Some (v, []) => Some v
  | _ => None
  end.

(** The value a reader gets back: the same data with the members of every
    object in key order. *)
Fixpoint sorted_keys (v : json) : json :=
  match v with
  | JList l => JList (map sorted_keys l)
  | JDict kvs =>
      JDict (sort_items (map (fun kv => (fst kv, sorted_keys (snd kv))) kvs))
  | _ => v
  end.

(** A Python dict has no repeated key, at any depth. *)
Fixpoint unique_keys (v : json) : bool :=
  match v with
  | JList l => forallb unique_keys l
  | JDict kvs =>
      nodupb (map fst kvs) && forallb (fun kv => unique_keys (snd kv)) kvs
  | _ => true
  end.

(** Number of parser calls a value takes. *)
Fixpoint size (v : json) : nat :=
  match v with
  | JList l => S (fold_right (fun x acc => S (size x + acc)) O l)
  | JDict kvs => S (fold_right (fun kv acc => S (size (snd kv) + acc)) O kvs)
  | _ => 1
  end.

End Json.

(** The text of a JSON response, and [None] for the other responses. *)
Definition response_text (r : response) : option (list Json.token) :=
  match r with
  | JsonResponse _ body => Some (Json.dumps body)
  | _ => None
  end.

(* ------------------------------------------------------------------ *)
(** ** A concrete runtime and sample tables *)

Module Sample.

Definition digit_of (c : ascii) : option Z :=
  let n := Z.of_nat (nat_of_ascii c) in
  if (48 <=? n) && (n <=? 57) then Some (n - 48) else None.

Fixpoint digits (s : string) (acc : Z) : option Z :=
  match s with
  | EmptyString => Some acc
  | String c tl =>
      match digit_of c with
      | Some d => digits tl (10 * acc + d)
      | None => None
      end
  end.

(** [int(s)] on the texts made of an optional sign and ASCII digits. *)
Definition ascii_int (s : string) : option Z :=
  match s with
  | EmptyString => None
  | String "-" EmptyString | String "+" EmptyString => None
  | String "-" tl => option_map Z.opp (digits tl 0)
  | String "+" tl => digits tl 0
  | _ => digits s 0
  end.

#[local] Instance runtime : PyRuntime := {|
  APP_ROOT := "/srv/app";
  int_of_str := ascii_int;
  repr_str := fun s => ("'" ++ s ++ "'")%string;
  json_double := fun f => f
|}.

(** [id,is_fit] with rows 1,0 / 2,1 / 3,0 *)
Definition fit_table : DataFrame := {|
  schema := [("id", Int64); ("is_fit", Int64)];
  rows := [ [VInt 1; VInt 0]; [VInt 2; VInt 1]; [VInt 3; VInt 0] ]
|}.

(** [id,is_fit] where the row of id 4 has is_fit 2 *)
Definition graded_table : DataFrame := {|
  schema := [("id", Int64); ("is_fit", Int64)];
  rows := [ [VInt 4; VInt 2] ]
|}.

(** [id,is_fit] where the row of id 7 has an empty is_fit cell *)
Definition gap_table : DataFrame := {|
  schema := [("id", Int64); ("is_fit", Float64)];
  rows := [ [VInt 6; VFloat (FNum 1 0)]; [VInt 7; VFloat FNaN] ]
|}.

(** [id,name] with the id 5 on two rows and no is_fit column *)
Definition twin_table : DataFrame := {|
  schema := [("id", Int64); ("name", Object)];
  rows := [ [VInt 5; VStr "ann"]; [VInt 8; VStr "bob"]; [VInt 5; VStr "cy"] ]
|}.

(** [name,score]: no id column *)
Definition anonymous_table : DataFrame := {|
  schema := [("name", Object); ("score", Float64)];
  rows := [ [VStr "ann"; VFloat (FNum 3 (-1))] ]
|}.

(** [id,weight] whose id does not fit in 53 bits *)
Definition wide_table : DataFrame := {|
  schema := [("id", Int64); ("weight", Float64)];
  rows := [ [VInt 9007199254740993; VFloat (FNum 3 (-1))] ]
|}.

(** The results of three lookups, [JNull] standing for a raised error. *)
Definition output_of (df : DataFrame) (n : Z) : json :=
  match build_prediction_output (Present (Ok df)) n with
  | Ok out => out
  | Raise _ => JNull
  end.

Definition fit_output : json := output_of fit_table 2.

Definition graded_output : json := output_of graded_table 4.

Definition twin_output : json := output_of twin_table 5.

End Sample.

(* ------------------------------------------------------------------ *)
(** ** Reading a nested dict, and the shape of the result *)

(** [v[k1][k2]...], [None] when a key is missing. *)
Fixpoint json_path (ks : list string) (v : json) : option json :=
  match ks with
  | [] => Some v
  | k :: tl =>
      match json_get k v with
      | Some x => json_path tl x
      | None => None
      end
  end.

(** The row test behind [df[df[name] == n]], one row at a time. *)
Definition row_matches (df : DataFrame) (name : string) (n : Z)
  (r : list cell) : bool :=
  let d := match assoc name (schema df) with Some d => d | None => Object end in
  let test nf :=
    match row_get df name r with
    | Some c => elem_eq d n nf c
    | None => false
    end in
  match d, Float64.of_Z n with
  | Float64, Some nf => test nf
  | Float64, None => false
  | _, _ => test FNaN
  end.

(** A scalar that stands for the integer [n]. *)
Definition cell_holds (c : cell) (n : Z) : Prop :=
  match c with
  | VInt z => z = n
  | VFloat f => Float64.is_int f n
  | VBool b => Z.b2z b = n
  | VStr _ => False
  end.

(** The id [n] occurs in the id column. *)
Definition id_present (df : DataFrame) (n : Z) : Prop :=
  exists r c, In r (rows df) /\ row_get df "id" r = Some c /\ cell_holds c n.

(** [float(n) == n]: the integer is one of the binary64 numbers. *)
Definition exact_float (n : Z) : bool :=
  match Float64.of_Z n with
  | Some f => Float64.eqb_Z f n
  | None => false
  end.

(** Apply a function to the value of a member. *)
Definition on_value {A B} (g : A -> B) (kv : string * A) : string * B :=
  (fst kv, g (snd kv)).

Section Shape.
Context {rt : PyRuntime}.


(** What [build_prediction_output] does once the matching rows are known
    and [first] is the first of them. *)
Definition output_for (df : DataFrame) (record_id : Z) (first : list cell)
  : result json :=
  let row_dict := row_to_dict df first in
  is_fit_value <- int_get row_dict "is_fit" 0 ;;
  ribbon_id <- int_get row_dict "id" record_id ;;
  Ok (JDict
    [ ("block_ribbon",
         JDict [ ("id", JInt ribbon_id);
                 ("retrieved", series_to_json (series_of_dict row_dict)) ]);
      ("block_middle_upper",
         JDict [ ("is_fit", JInt is_fit_value);
                 ("key_factors", JStr key_factors_text) ]);
      ("block_middle_lower",
         JDict [ ("table_rows", frame_to_json_records (head 10 df));
                 ("columns", JList (map JStr (columns df))) ]);
      ("block_nearest_neighbors",
         JDict [ ("Nearest neighbors", JStr "Nearest neighbors") ]);
      ("block_right",
         JDict [ ("narrative",
                  JStr (narrative_text record_id is_fit_value)) ]) ]).

(** The members of the object [to_json] writes for a Series. *)
Definition series_items (s : list (string * cell)) : list (string * json) :=
  map (on_value cell_to_json) s.

End Shape.

(** ** Notions used to state the round trip of the JSON text *)

Import Json.

(** Parser calls taken by the elements of a list. *)
Definition total_size (l : list json) : nat :=
  fold_right (fun x acc => S (size x + acc)) O l.

(** The first token of a value. *)
Definition opens_value (t : token) : bool :=
  match t with
  | TRBrace | TRBracket | TColon | TComma => false
  | _ => true
  end.

(** [v] is read back from its text, whatever follows it, by a parser
    allowed [size v] nested calls. *)
Definition reads_back (v : json) : Prop :=
  forall n rest, (size v <= n)%nat ->
    parse_value n (dumps v ++ rest) = Some (sorted_keys v, rest).


(* ------------------------------------------------------------------ *)
(** ** The listing page *)

(** A scalar as [to_dict] hands it to Python: a missing value stays the
    float NaN. *)
Definition cell_to_py (c : cell) : json :=
  match c with
  | VInt z => JInt z
  | VFloat f => JFloat f
  | VBool b => JBool b
  | VStr s => JStr s
  end.

(** [frame.to_dict(orient="records")]: one dict per row, in table order,
    each cell under the name of its column. *)
Definition frame_to_dict_records (df : DataFrame) : list json :=
  map (fun r => JDict (map (on_value cell_to_py) (combine (columns df) r)))
      (rows df).

Section Listing.
Context {rt : PyRuntime}.

(** [GET /].  Nothing is caught here: an exception of [load_dataframe]
    leaves the handler. *)
Definition index (src : source) : result response :=
  df <- load_dataframe src ;;
  Ok (Rendered "index.html"
        [ ("records", JList (frame_to_dict_records df));
          ("columns", JList (map JStr (columns df))) ]).

End Listing.

(** Further sample tables. *)
Module Ledger.

(** [id,is_fit] with a header and no data row *)
Definition empty_table : DataFrame := {|
  schema := [("id", Int64); ("is_fit", Int64)];
  rows := []
|}.

(** [id,is_fit] whose ids were read as text *)
Definition text_id_table : DataFrame := {|
  schema := [("id", Object); ("is_fit", Int64)];
  rows := [ [VStr "a1"; VInt 1]; [VStr "7"; VInt 0] ]
|}.

(** [id,is_fit] with the ids 1 to 10, all fit *)
Definition ten_rows : list (list cell) :=
  map (fun i => [VInt i; VInt 1]) [1; 2; 3; 4; 5; 6; 7; 8; 9; 10].

Definition long_table : DataFrame := {|
  schema := [("id", Int64); ("is_fit", Int64)];
  rows := ten_rows
|}.

(** [id,name] where the name of the row of id 3 is missing *)
Definition nameless_table : DataFrame := {|
  schema := [("id", Int64); ("name", Object)];
  rows := [ [VInt 3; VFloat FNaN]; [VInt 4; VStr "dee"] ]
|}.

End Ledger.


(** Tables with ids of 54 bits. *)
Module Wide.


(** [id,is_fit] whose second id cell is empty, which makes the id column a
    float64 column; the first id is [2^53] *)
Definition float_id_table : DataFrame := {|
  schema := [("id", Float64); ("is_fit", Int64)];
  rows := [ [VFloat (FNum 9007199254740992 0); VInt 1];
            [VFloat FNaN; VInt 0] ]
|}.

End Wide.

(** Induction on a value that reaches the elements of lists and the
    members of dicts. *)
Section JsonInduction.
Variable P : json -> Prop.
Hypothesis Hnull : P JNull.
Hypothesis Hbool : forall b, P (JBool b).
Hypothesis Hint : forall z, P (JInt z).
Hypothesis Hfloat : forall f, P (JFloat f).
Hypothesis Hstr : forall s, P (JStr s).
Hypothesis Hlist : forall l, Forall P l -> P (JList l).
Hypothesis Hdict :
  forall kvs, Forall (fun kv => P (snd kv)) kvs -> P (JDict kvs).

Fixpoint json_nested_ind (v : json) : P v :=
  match v with
  | JNull => Hnull
  | JBool b => Hbool b
  | JInt z => Hint z
  | JFloat f => Hfloat f
  | JStr s => Hstr s
  | JList l =>
      Hlist l
        ((fix go (l : list json) : Forall P l :=
            match l with
            | [] => Forall_nil P
            | x :: tl => Forall_cons x (json_nested_ind x) (go tl)
            end) l)
  | JDict kvs =>
      Hdict kvs
        ((fix go (l : list (string * json))
            : Forall (fun kv => P (snd kv)) l :=
            match l with
            | [] => Forall_nil _
            | kv :: tl =>
                Forall_cons kv
                  (match kv as p return P (snd p) with
                   | (_, x) => json_nested_ind x
                   end)
                  (go tl)
            end) kvs)
  end.

End JsonInduction.

(* ------------------------------------------------------------------ *)
(** ** Lemmas on strings, dicts and rows *)

Lemma append_assoc (a b c : string) :
  ((a ++ b) ++ c)%string = (a ++ b ++ c)%string.
Proof. induction a as [|x a IH]; simpl; [reflexivity | now rewrite IH]. Qed.

Lemma append_empty_r (a : string) : (a ++ "")%string = a.
Proof. induction a as [|x a IH]; simpl; [reflexivity | now rewrite IH]. Qed.

Lemma contains_middle (a b c : string) : contains b (a ++ b ++ c)%string.
Proof. now exists a, c. Qed.

Lemma contains_suffix (a b : string) : contains b (a ++ b)%string.
Proof. exists a, ""%string. now rewrite append_empty_r. Qed.

Lemma existsb_eqb_In (k : string) (l : list string) :
  existsb (String.eqb k) l = true <-> In k l.
Proof.
  rewrite existsb_exists. split.
  - intros (x & Hin & Heq). apply String.eqb_eq in Heq. now subst.
  - intros Hin. exists k. split; [assumption | apply String.eqb_refl].
Qed.

Lemma assoc_combine_In {A} (k : string) (ks : list string) (vs : list A) a :
  assoc k (combine ks vs) = Some a -> In k ks.
Proof.
  revert vs. induction ks as [|k' ks IH]; intros [|v vs]; simpl; try discriminate.
  destruct (String.eqb_spec k k') as [->|Hne].
  - intros _. now left.
  - intros H. right. eauto.
Qed.

Lemma assoc_combine_map {A B} (g : A -> B) (k : string) ks (vs : list A) :
  assoc k (combine ks (map g vs)) = option_map g (assoc k (combine ks vs)).
Proof.
  revert vs. induction ks as [|k' ks IH]; intros [|v vs]; simpl; try reflexivity.
  destruct (k =? k')%string; [reflexivity | apply IH].
Qed.

Lemma row_get_has_column (df : DataFrame) name r c :
  row_get df name r = Some c -> has_column name df = true.
Proof.
  unfold row_get, has_column. intros H.
  apply existsb_eqb_In. eapply assoc_combine_In; eassumption.
Qed.

Lemma has_column_false_row_get (df : DataFrame) name r :
  has_column name df = false -> row_get df name r = None.
Proof.
  intros H. destruct (row_get df name r) eqn:E; [|reflexivity].
  apply row_get_has_column in E. congruence.
Qed.

(** The cell [to_dict] gives for a column is the row's cell, converted
    when the row is read as a float Series. *)
Lemma row_to_dict_assoc (df : DataFrame) name r :
  assoc name (row_to_dict df r) = row_get df name r
  \/ assoc name (row_to_dict df r)
     = option_map to_float_cell (row_get df name r).
Proof.
  unfold row_to_dict, row_series, row_get.
  destruct (forallb is_numeric (dtypes df) && existsb is_float (dtypes df)).
  - right. apply assoc_combine_map.
  - now left.
Qed.

Lemma select_eq_filter (df : DataFrame) name n l :
  select_eq df name n = Ok l -> l = filter (row_matches df name n) (rows df).
Proof.
  unfold select_eq, row_matches.
  destruct (match assoc name (schema df) with Some d => d | None => Object end);
    try (intros [= <-]; reflexivity).
  destruct (Float64.of_Z n); [intros [= <-]; reflexivity | discriminate].
Qed.

Lemma row_matches_cell (df : DataFrame) name n r :
  row_matches df name n r = true ->
  exists c, row_get df name r = Some c
    /\ exists nf,
         elem_eq (match assoc name (schema df) with
                  | Some d => d | None => Object end) n nf c = true
         /\ (assoc name (schema df) = Some Float64 ->
             Float64.of_Z n = Some nf).
Proof.
  unfold row_matches.
  destruct (assoc name (schema df)) as [[| | |]|];
    destruct (Float64.of_Z n) as [f|]; try discriminate;
    destruct (row_get df name r) as [c|]; try discriminate;
    intros H; exists c; (split; [reflexivity|]);
    first [ exists f; split; [exact H | congruence]
          | exists FNaN; split; [exact H | congruence] ].
Qed.

Lemma select_eq_first (df : DataFrame) name n first rest :
  select_eq df name n = Ok (first :: rest) ->
  In first (rows df) /\ row_matches df name n first = true.
Proof.
  intros H. apply select_eq_filter in H.
  assert (Hin : In first (filter (row_matches df name n) (rows df)))
    by (rewrite <- H; now left).
  now apply filter_In in Hin.
Qed.

Lemma filter_none {A} (p : A -> bool) (l : list A) :
  (forall x, In x l -> p x = false) -> filter p l = [].
Proof.
  induction l as [|x l IH]; simpl; [reflexivity|].
  intros H. rewrite (H x) by now left. apply IH. intros y Hy. apply H.
  now right.
Qed.

Lemma filter_first_split {A} (p : A -> bool) pre x post :
  forallb (fun a => negb (p a)) pre = true -> p x = true ->
  filter p (pre ++ x :: post) = x :: filter p post.
Proof.
  intros Hpre Hx. induction pre as [|a pre IH]; simpl in *.
  - now rewrite Hx.
  - apply andb_true_iff in Hpre as [Ha Hpre].
    apply negb_true_iff in Ha. rewrite Ha. auto.
Qed.

Section Facts.
Context {rt : PyRuntime}.

Lemma build_on_frame (df : DataFrame) (record_id : Z) :
  has_column "id" df = true ->
  build_prediction_output (Present (Ok df)) record_id
  = (row_match <- select_eq df "id" record_id ;;
     match row_match with
     | [] => Raise (ValueError
               ("No record found for id " ++ str_of_int record_id)%string)
     | first :: _ => output_for df record_id first
     end).
Proof.
  intros H. unfold build_prediction_output. simpl. rewrite H. reflexivity.
Qed.

Lemma build_selected (df : DataFrame) record_id first rest :
  select_eq df "id" record_id = Ok (first :: rest) ->
  build_prediction_output (Present (Ok df)) record_id
  = output_for df record_id first.
Proof.
  intros H. rewrite build_on_frame.
  - rewrite H. reflexivity.
  - apply select_eq_first in H as [_ H].
    apply row_matches_cell in H as (c & E & _).
    eapply row_get_has_column; eassumption.
Qed.

(** A successful call went through every step of the function. *)
Lemma build_ok_inv (src : source) record_id out :
  build_prediction_output src record_id = Ok out ->
  exists df first rest,
    src = Present (Ok df)
    /\ select_eq df "id" record_id = Ok (first :: rest)
    /\ output_for df record_id first = Ok out.
Proof.
  destruct src as [|[df|e]]; simpl; try discriminate.
  unfold build_prediction_output. simpl.
  destruct (has_column "id" df) eqn:Hid; simpl; [|discriminate].
  destruct (select_eq df "id" record_id) as [[|first rest]|e] eqn:Hsel;
    simpl; try discriminate.
  intros H. exists df, first, rest. auto.
Qed.

Lemma output_for_ok_inv (df : DataFrame) record_id first out :
  output_for df record_id first = Ok out ->
  exists fit rid,
    int_get (row_to_dict df first) "is_fit" 0 = Ok fit
    /\ int_get (row_to_dict df first) "id" record_id = Ok rid
    /\ out = JDict
        [ ("block_ribbon",
             JDict [ ("id", JInt rid);
                     ("retrieved",
                      series_to_json (series_of_dict (row_to_dict df first))) ]);
          ("block_middle_upper",
             JDict [ ("is_fit", JInt fit);
                     ("key_factors", JStr key_factors_text) ]);
          ("block_middle_lower",
             JDict [ ("table_rows", frame_to_json_records (head 10 df));
                     ("columns", JList (map JStr (columns df))) ]);
          ("block_nearest_neighbors",
             JDict [ ("Nearest neighbors", JStr "Nearest neighbors") ]);
          ("block_right",
             JDict [ ("narrative", JStr (narrative_text record_id fit)) ]) ].
Proof.
  unfold output_for.
  destruct (int_get (row_to_dict df first) "is_fit" 0) as [fit|e]; simpl;
    [|discriminate].
  destruct (int_get (row_to_dict df first) "id" record_id) as [rid|e]; simpl;
    [|discriminate].
  intros [= <-]. exists fit, rid. auto.
Qed.

End Facts.

(* ------------------------------------------------------------------ *)
(** ** Errors of the lookup and of the two endpoints *)

Section Errors.
Context {rt : PyRuntime}.

Lemma on_predict_raise (src : source) s n e :
  int_of_str s = Some n ->
  build_prediction_output src n = Raise e ->
  on_predict src (Some s)
  = (JsonResponse 400 (error_body (exn_str e)), [EvBuild n])
  /\ result_page src (Some s) = (Redirect index_url, [EvBuild n]).
Proof.
  intros Hs Hb. unfold on_predict, result_page. rewrite Hs, Hb. auto.
Qed.

Lemma build_without_id (df : DataFrame) (n : Z) :
  has_column "id" df = false ->
  build_prediction_output (Present (Ok df)) n
  = Raise (ValueError "CSV must contain an 'id' column").
Proof.
  intros H. unfold build_prediction_output. simpl. rewrite H. reflexivity.
Qed.

(** C6.  When the [id] parameter is missing, or is a text that [int]
    rejects, [/on_predict] answers with status 400 and an error message,
    [/result] redirects to the listing page, and neither handler calls
    [build_prediction_output]: the answer is the same whatever the file
    holds. *)
Theorem bad_id_parameter_is_rejected (src : source) (id_param : option string) :
  (id_param = None
   \/ exists s, id_param = Some s /\ int_of_str s = None) ->
  (exists msg,
     on_predict src id_param = (JsonResponse 400 (error_body msg), []))
  /\ result_page src id_param = (Redirect index_url, [])
  /\ forall src',
       on_predict src' id_param = on_predict src id_param
       /\ result_page src' id_param = result_page src id_param.
Proof.
  intros [-> | (s & -> & Hs)]; unfold on_predict, result_page.
  - repeat split; eauto.
  - rewrite Hs. repeat split; eauto.
Qed.

(** C7.  On a table without an [id] column [build_prediction_output]
    raises the "CSV must contain an 'id' column" [ValueError] for every
    requested id, whatever the rows are; and when the file is absent it
    raises exactly the [FileNotFoundError] of [load_dataframe]. *)
Theorem schema_and_source_errors (df : DataFrame) (n : Z) :
  has_column "id" df = false ->
  build_prediction_output (Present (Ok df)) n
  = Raise (ValueError "CSV must contain an 'id' column")
  /\ (forall rows',
        build_prediction_output
          (Present (Ok {| schema := schema df; rows := rows' |})) n
        = Raise (ValueError "CSV must contain an 'id' column"))
  /\ (exists msg,
        load_dataframe Absent = Raise (FileNotFoundError msg)
        /\ build_prediction_output Absent n = Raise (FileNotFoundError msg)).
Proof.
  intros H. split; [now apply build_without_id|]. split.
  - intros rows'. apply build_without_id. exact H.
  - eexists. split; reflexivity.
Qed.

(** C10.  If the first row matching the id has NaN in its [is_fit] cell,
    [build_prediction_output] raises the [ValueError] of [int(nan)]
    instead of using 0; [/on_predict] answers 400 with that message and
    [/result] redirects to the listing page. *)
Theorem empty_fit_cell_is_an_error (df : DataFrame) (n : Z) first rest :
  select_eq df "id" n = Ok (first :: rest) ->
  row_get df "is_fit" first = Some (VFloat FNaN) ->
  build_prediction_output (Present (Ok df)) n
  = Raise (ValueError "cannot convert float NaN to integer")
  /\ forall s, int_of_str s = Some n ->
       fst (on_predict (Present (Ok df)) (Some s))
       = JsonResponse 400 (error_body "cannot convert float NaN to integer")
       /\ fst (result_page (Present (Ok df)) (Some s)) = Redirect index_url.
Proof.
  intros Hsel Hfit.
  assert (Hb : build_prediction_output (Present (Ok df)) n
    = Raise (ValueError "cannot convert float NaN to integer")).
  { rewrite (build_selected _ _ _ _ Hsel). unfold output_for, int_get.
    destruct (row_to_dict_assoc df "is_fit" first) as [E|E];
      rewrite E, Hfit; reflexivity. }
  split; [exact Hb|]. intros s Hs.
  destruct (on_predict_raise _ _ _ _ Hs Hb) as [H1 H2].
  rewrite H1, H2. auto.
Qed.

End Errors.

(* ------------------------------------------------------------------ *)
(** ** The blocks of a successful lookup *)

Section Blocks.
Context {rt : PyRuntime}.

(** C4.  In the result of a successful lookup the narrative contains the
    decimal text of the requested id; it ends with "is fit" when the fit
    flag is 1 and with "is not fit" when the flag is 0, so it contains
    "fit", respectively "not fit". *)
Theorem narrative_names_id_and_label (src : source) (n : Z) (out : json) :
  build_prediction_output src n = Ok out ->
  exists flag text,
    json_path ["block_middle_upper"; "is_fit"] out = Some (JInt flag)
    /\ json_path ["block_right"; "narrative"] out = Some (JStr text)
    /\ contains (str_of_int n) text
    /\ (flag = 1 ->
        text = ("For the id " ++ str_of_int n
                ++ ", it is predicted as the person is fit")%string
        /\ contains "fit" text)
    /\ (flag = 0 ->
        text = ("For the id " ++ str_of_int n
                ++ ", it is predicted as the person is not fit")%string
        /\ contains "not fit" text).
Proof.
  intros H. apply build_ok_inv in H as (df & first & rest & -> & _ & H).
  apply output_for_ok_inv in H as (fit & rid & _ & _ & ->).
  exists fit, (narrative_text n fit). split; [reflexivity|].
  split; [reflexivity|]. unfold narrative_text. split.
  - apply contains_middle.
  - split; intros ->; simpl (_ =? _)%Z; (split; [reflexivity|]).
    + exists ("For the id " ++ str_of_int n
              ++ ", it is predicted as the person is ")%string, ""%string.
      rewrite !append_assoc. reflexivity.
    + exists ("For the id " ++ str_of_int n
              ++ ", it is predicted as the person is ")%string, ""%string.
      rewrite !append_assoc. reflexivity.
Qed.

(** C5.  In the result of a successful lookup, [table_rows] is the JSON
    form of the first rows of the table in file order, at most ten of
    them and the same for every requested id, and [columns] is the list
    of all column names in table order. *)
Theorem preview_is_table_head (df : DataFrame) (n : Z) (out : json) :
  build_prediction_output (Present (Ok df)) n = Ok out ->
  json_path ["block_middle_lower"; "table_rows"] out
  = Some (JList (map (fun r => series_to_json (combine (columns df) r))
                     (firstn 10 (rows df))))
  /\ (List.length (firstn 10 (rows df)) <= 10)%nat
  /\ (exists post, rows df = firstn 10 (rows df) ++ post)
  /\ json_path ["block_middle_lower"; "columns"] out
     = Some (JList (map JStr (columns df)))
  /\ forall n' out',
       build_prediction_output (Present (Ok df)) n' = Ok out' ->
       json_path ["block_middle_lower"] out'
       = json_path ["block_middle_lower"] out.
Proof.
  intros H. apply build_ok_inv in H as (df0 & first & rest & [= <-] & _ & H).
  apply output_for_ok_inv in H as (fit & rid & _ & _ & ->).
  split; [reflexivity|]. split; [apply firstn_le_length|].
  split; [exists (skipn 10 (rows df)); symmetry; apply firstn_skipn|].
  split; [reflexivity|].
  intros n' out' H'.
  apply build_ok_inv in H' as (df0 & first' & rest' & [= <-] & _ & H').
  apply output_for_ok_inv in H' as (fit' & rid' & _ & _ & ->).
  reflexivity.
Qed.

End Blocks.

(* ------------------------------------------------------------------ *)
(** ** Integers read as floats *)

Lemma eqb_Z_is_int (f : float64) (n : Z) :
  Float64.eqb_Z f n = true <-> Float64.is_int f n.
Proof.
  destruct f as [| |m e]; simpl; try (split; [discriminate | tauto]).
  destruct (Z.leb_spec 0 e) as [He|He]; rewrite Z.eqb_eq; split; intros H.
  - left. auto.
  - destruct H as [[_ H]|[H' _]]; [exact H | lia].
  - right. auto.
  - destruct H as [[H' _]|[_ H]]; [lia | exact H].
Qed.

Lemma trunc_is_int (m e n : Z) :
  Float64.is_int (FNum m e) n -> Float64.trunc m e = n.
Proof.
  unfold Float64.trunc. simpl. intros [[He H]|[He H]].
  - apply Z.leb_le in He. now rewrite He.
  - assert (E : (0 <=? e) = false) by (apply Z.leb_gt; exact He).
    rewrite E. subst m. apply Z.quot_mul.
    apply Z.pow_nonzero; lia.
Qed.

Lemma of_Z_shape (n : Z) (f : float64) :
  Float64.of_Z n = Some f -> exists m e, f = FNum m e /\ 0 <= e.
Proof.
  unfold Float64.of_Z.
  destruct (Z.leb_spec (bit_length (Z.abs n) - 53) 0).
  - intros [= <-]. exists n, 0. split; [reflexivity | lia].
  - match goal with |- context [if ?b then None else _] => destruct b end;
      [discriminate|].
    intros [= <-]. eexists _, _. split; [reflexivity | lia].
Qed.

Lemma exact_float_inv (n : Z) :
  exact_float n = true ->
  exists m e, Float64.of_Z n = Some (FNum m e) /\ 0 <= e /\ m * 2 ^ e = n.
Proof.
  unfold exact_float. destruct (Float64.of_Z n) as [f|] eqn:E; [|discriminate].
  destruct (of_Z_shape _ _ E) as (m & e & -> & He). simpl.
  apply Z.leb_le in He as He'. rewrite He'. rewrite Z.eqb_eq.
  intros H. exists m, e. auto.
Qed.

(** Integers of fewer than 54 bits are binary64 numbers. *)
Lemma exact_float_small (n : Z) : Z.abs n < 2 ^ 53 -> exact_float n = true.
Proof.
  intros H. unfold exact_float, Float64.of_Z.
  assert (Hk : bit_length (Z.abs n) - 53 <= 0).
  { unfold bit_length. destruct (Z.eqb_spec (Z.abs n) 0); [lia|].
    assert (Z.log2 (Z.abs n) < 53) by (apply Z.log2_lt_pow2; lia). lia. }
  apply Z.leb_le in Hk. rewrite Hk. simpl. rewrite Z.mul_1_r. apply Z.eqb_refl.
Qed.

Lemma eqb_is_int (m1 e1 m2 e2 n : Z) :
  Float64.eqb (FNum m1 e1) (FNum m2 e2) = true ->
  0 <= e2 -> m2 * 2 ^ e2 = n ->
  Float64.is_int (FNum m1 e1) n.
Proof.
  simpl. rewrite Z.eqb_eq. intros H He2 Hn.
  destruct (Z.le_gt_cases e1 e2) as [Hle|Hgt].
  - rewrite Z.min_l in H by assumption.
    rewrite Z.sub_diag, Z.mul_1_r in H. subst m1.
    destruct (Z.le_gt_cases 0 e1) as [H0|H0].
    + left. split; [assumption|]. rewrite <- Hn, <- Z.mul_assoc.
      rewrite <- Z.pow_add_r by lia. f_equal; f_equal; lia.
    + right. split; [assumption|]. rewrite <- Hn, <- Z.mul_assoc.
      rewrite <- Z.pow_add_r by lia. f_equal; f_equal; lia.
  - rewrite Z.min_r in H by lia.
    rewrite Z.sub_diag, Z.mul_1_r in H. subst m2.
    left. split; [lia|]. rewrite <- Hn, <- Z.mul_assoc.
    rewrite <- Z.pow_add_r by lia. f_equal; f_equal; lia.
Qed.


(* ------------------------------------------------------------------ *)
(** ** The row that is found *)


Lemma elem_eq_holds (d : dtype) (c : cell) (n : Z) (nf : float64) :
  elem_eq d n nf c = true ->
  (d = Float64 -> Float64.of_Z n = Some nf) ->
  exact_float n = true ->
  cell_holds c n.
Proof.
  intros H Hd Hx.
  assert (P : py_eq_int c n = true -> cell_holds c n).
  { destruct c; simpl; try discriminate.
    - apply Z.eqb_eq.
    - apply eqb_Z_is_int.
    - apply Z.eqb_eq. }
  destruct d, c; simpl in H; try (apply P; exact H).
  apply exact_float_inv in Hx as (m & e & Hof & He & Hn).
  rewrite Hd in Hof by reflexivity. injection Hof as ->.
  destruct f as [| |m1 e1]; try discriminate.
  simpl. eapply eqb_is_int; eassumption.
Qed.


Lemma select_eq_exact (df : DataFrame) (n : Z) :
  exact_float n = true ->
  select_eq df "id" n = Ok (filter (row_matches df "id" n) (rows df)).
Proof.
  intros Hx. apply exact_float_inv in Hx as (m & e & Hof & _).
  unfold select_eq, row_matches. rewrite Hof.
  destruct (match assoc "id" (schema df) with Some d => d | None => Object end);
    reflexivity.
Qed.

Lemma select_eq_matching (df : DataFrame) (n : Z) r :
  row_matches df "id" n r = true ->
  select_eq df "id" n = Ok (filter (row_matches df "id" n) (rows df)).
Proof.
  unfold select_eq, row_matches.
  destruct (match assoc "id" (schema df) with Some d => d | None => Object end);
    try reflexivity.
  destruct (Float64.of_Z n); [reflexivity | discriminate].
Qed.

Section Lookup.
Context {rt : PyRuntime}.

Lemma py_int_holds (c : cell) (n : Z) :
  cell_holds c n -> py_int c = Ok n.
Proof.
  destruct c as [z|f|b|s]; simpl; try tauto; try congruence.
  destruct f as [| |m e]; simpl; try tauto.
  intros H. f_equal. now apply trunc_is_int.
Qed.

Lemma py_int_float_holds (c : cell) (n : Z) :
  cell_holds c n -> exact_float n = true -> py_int (to_float_cell c) = Ok n.
Proof.
  intros H Hx. destruct c as [z|f|b|s]; try (now apply py_int_holds).
  simpl in H. subst z. apply exact_float_inv in Hx as (m & e & Hof & He & Hn).
  simpl. rewrite Hof. simpl. f_equal. apply trunc_is_int. simpl. auto.
Qed.

Lemma int_get_holds (df : DataFrame) name r c (n default : Z) :
  row_get df name r = Some c -> cell_holds c n -> exact_float n = true ->
  int_get (row_to_dict df r) name default = Ok n.
Proof.
  intros Hc Hh Hx. unfold int_get.
  destruct (row_to_dict_assoc df name r) as [E|E]; rewrite E, Hc; simpl.
  - now apply py_int_holds.
  - now apply py_int_float_holds.
Qed.




Lemma py_eq_int_holds (c : cell) (n : Z) :
  py_eq_int c n = true <-> cell_holds c n.
Proof.
  destruct c as [z|f|b|s]; simpl.
  - apply Z.eqb_eq.
  - apply eqb_Z_is_int.
  - apply Z.eqb_eq.
  - split; [discriminate | tauto].
Qed.

Lemma plain_row_matches (df : DataFrame) (n : Z) (r : list cell) :
  assoc "id" (schema df) <> Some Float64 ->
  row_matches df "id" n r
  = match row_get df "id" r with
    | Some c => py_eq_int c n
    | None => false
    end.
Proof.
  intros Hd. unfold row_matches.
  destruct (assoc "id" (schema df)) as [[| | |]|]; try congruence;
    destruct (Float64.of_Z n); destruct (row_get df "id" r) as [c|];
    try reflexivity; destruct c; reflexivity.
Qed.

Lemma plain_select_eq (df : DataFrame) (n : Z) :
  assoc "id" (schema df) <> Some Float64 ->
  select_eq df "id" n = Ok (filter (row_matches df "id" n) (rows df)).
Proof.
  intros Hd. unfold select_eq, row_matches.
  destruct (assoc "id" (schema df)) as [[| | |]|]; try congruence;
    destruct (Float64.of_Z n); reflexivity.
Qed.




(** C2 (amended).  In the result of a successful lookup the fit flag is
    the integer that the [is_fit] cell of the first matching row stands
    for: it is 0 when that cell holds 0 and 1 when it holds 1, whatever
    other binary64 integer the cell holds otherwise, and it is 0 whenever
    the table has no [is_fit] column. *)
Theorem fit_flag_is_cell_value (df : DataFrame) (n : Z) (out : json) :
  build_prediction_output (Present (Ok df)) n = Ok out ->
  exists flag,
    json_path ["block_middle_upper"; "is_fit"] out = Some (JInt flag)
    /\ (has_column "is_fit" df = false -> flag = 0)
    /\ (forall first rest c,
          select_eq df "id" n = Ok (first :: rest) ->
          row_get df "is_fit" first = Some c ->
          (cell_holds c 0 -> flag = 0)
          /\ (cell_holds c 1 -> flag = 1)
          /\ (forall b, exact_float b = true -> cell_holds c b -> flag = b)).
Proof.
  intros H.
  apply build_ok_inv in H as (df0 & first & rest & [= <-] & Hsel & H).
  apply output_for_ok_inv in H as (fit & rid & Hfit & _ & ->).
  exists fit. split; [reflexivity|]. split.
  - intros Hno. unfold int_get in Hfit.
    destruct (row_to_dict_assoc df "is_fit" first) as [E|E];
      rewrite E, (has_column_false_row_get _ _ _ Hno) in Hfit;
      simpl in Hfit; congruence.
  - intros first' rest' c Hsel' Hc. rewrite Hsel in Hsel'.
    injection Hsel' as <- <-.
    assert (G : forall b, exact_float b = true -> cell_holds c b -> fit = b).
    { intros b Hb Hh.
      rewrite (int_get_holds df "is_fit" first c b 0 Hc Hh Hb) in Hfit.
      congruence. }
    split; [apply G; reflexivity|]. split; [apply G; reflexivity | exact G].
Qed.

(** C8.  When several rows carry the requested id, the result is built
    from the first of them in table order: the call computes
    [output_for] on that row, and in a successful result [block_ribbon]
    holds that row's id and that row's fields. *)
Theorem first_matching_row_wins (df : DataFrame) (n : Z) pre first post :
  rows df = pre ++ first :: post ->
  forallb (fun r => negb (row_matches df "id" n r)) pre = true ->
  row_matches df "id" n first = true ->
  build_prediction_output (Present (Ok df)) n = output_for df n first
  /\ forall out,
       build_prediction_output (Present (Ok df)) n = Ok out ->
       exists v,
         int_get (row_to_dict df first) "id" n = Ok v
         /\ json_path ["block_ribbon"] out
            = Some (JDict
                [ ("id", JInt v);
                  ("retrieved",
                   series_to_json (series_of_dict (row_to_dict df first))) ]).
Proof.
  intros Hrows Hpre Hfirst.
  pose proof (select_eq_matching df n first Hfirst) as Hsel.
  rewrite Hrows, (filter_first_split _ _ _ _ Hpre Hfirst) in Hsel.
  pose proof (build_selected _ _ _ _ Hsel) as Hb.
  split; [exact Hb|]. intros out Hout. rewrite Hb in Hout.
  apply output_for_ok_inv in Hout as (fit & v & _ & Hv & ->).
  exists v. split; [exact Hv | reflexivity].
Qed.

End Lookup.

(* ------------------------------------------------------------------ *)
(** ** The id that is not in the table *)

Section Unmatched.
Context {rt : PyRuntime}.

Lemma unheld_cell_differs (c : cell) (n : Z) :
  ~ cell_holds c n -> py_eq_int c n = false.
Proof.
  intros H. destruct (py_eq_int c n) eqn:E; [|reflexivity].
  apply py_eq_int_holds in E. contradiction.
Qed.

(** C3 (amended).  Let the table have an id column of which no cell holds
    the id; when that column is a float64 column, let the id converted to
    binary64 be within range and equal to no id cell either.  Then
    [build_prediction_output] raises the "No record found" [ValueError],
    whose message ends with that id; [/on_predict] answers it with status
    400 and [/result] with a redirect to the listing page. *)
Theorem unmatched_id_is_not_found (df : DataFrame) (n : Z) :
  has_column "id" df = true ->
  (forall r c, In r (rows df) -> row_get df "id" r = Some c ->
     ~ cell_holds c n) ->
  (assoc "id" (schema df) = Some Float64 ->
   exists nf,
     Float64.of_Z n = Some nf
     /\ forall r f, In r (rows df) -> row_get df "id" r = Some (VFloat f) ->
          Float64.eqb f nf = false) ->
  build_prediction_output (Present (Ok df)) n
  = Raise (ValueError ("No record found for id " ++ str_of_int n)%string)
  /\ contains (str_of_int n) ("No record found for id " ++ str_of_int n)%string
  /\ forall s, int_of_str s = Some n ->
       fst (on_predict (Present (Ok df)) (Some s))
       = JsonResponse 400
           (error_body ("No record found for id " ++ str_of_int n)%string)
       /\ fst (result_page (Present (Ok df)) (Some s)) = Redirect index_url.
Proof.
  intros Hid Habs Hfl.
  assert (Hsel : select_eq df "id" n = Ok []).
  { destruct (assoc "id" (schema df)) as [d|] eqn:Hd.
    - destruct d.
      4: { rewrite plain_select_eq by congruence. f_equal.
           apply filter_none. intros r Hr.
           rewrite plain_row_matches by congruence.
           destruct (row_get df "id" r) as [c|] eqn:Hc; [|reflexivity].
           apply unheld_cell_differs. eauto. }
      3: { rewrite plain_select_eq by congruence. f_equal.
           apply filter_none. intros r Hr.
           rewrite plain_row_matches by congruence.
           destruct (row_get df "id" r) as [c|] eqn:Hc; [|reflexivity].
           apply unheld_cell_differs. eauto. }
      1: { rewrite plain_select_eq by congruence. f_equal.
           apply filter_none. intros r Hr.
           rewrite plain_row_matches by congruence.
           destruct (row_get df "id" r) as [c|] eqn:Hc; [|reflexivity].
           apply unheld_cell_differs. eauto. }
      destruct (Hfl eq_refl) as (nf & Hof & Hne).
      unfold select_eq. rewrite Hd, Hof. f_equal.
      apply filter_none. intros r Hr.
      destruct (row_get df "id" r) as [c|] eqn:Hc; [|reflexivity].
      destruct c as [z|f|b|s]; simpl.
      + apply (unheld_cell_differs (VInt z)). eauto.
      + eauto.
      + apply (unheld_cell_differs (VBool b)). eauto.
      + reflexivity.
    - rewrite plain_select_eq by congruence. f_equal.
      apply filter_none. intros r Hr.
      rewrite plain_row_matches by congruence.
      destruct (row_get df "id" r) as [c|] eqn:Hc; [|reflexivity].
      apply unheld_cell_differs. eauto. }
  assert (Hb : build_prediction_output (Present (Ok df)) n
    = Raise (ValueError ("No record found for id " ++ str_of_int n)%string)).
  { rewrite build_on_frame by assumption. rewrite Hsel. reflexivity. }
  split; [exact Hb|]. split; [apply contains_suffix|].
  intros s Hs.
  destruct (on_predict_raise _ _ _ _ Hs Hb) as [H1 H2].
  rewrite H1, H2. auto.
Qed.

End Unmatched.

(* ------------------------------------------------------------------ *)
(** ** Writing a value and reading it back *)

Lemma insert_item_map {A B} (g : A -> B) k a (l : list (string * A)) :
  insert_item k (g a) (map (on_value g) l)
  = map (on_value g) (insert_item k a l).
Proof.
  induction l as [|[k' a'] l IH]; simpl; [reflexivity|].
  destruct (String.leb k k'); simpl; [reflexivity | now rewrite IH].
Qed.

Lemma sort_items_map {A B} (g : A -> B) (l : list (string * A)) :
  sort_items (map (on_value g) l) = map (on_value g) (sort_items l).
Proof.
  induction l as [|[k a] l IH]; simpl; [reflexivity|].
  rewrite IH. apply insert_item_map.
Qed.

Lemma insert_item_perm {A} k (a : A) l :
  Permutation (insert_item k a l) ((k, a) :: l).
Proof.
  induction l as [|[k' a'] l IH]; simpl; [reflexivity|].
  destruct (String.leb k k'); [reflexivity|].
  rewrite IH. apply perm_swap.
Qed.

Lemma sort_items_perm {A} (l : list (string * A)) :
  Permutation (sort_items l) l.
Proof.
  induction l as [|[k a] l IH]; simpl; [reflexivity|].
  rewrite insert_item_perm. now constructor.
Qed.

Lemma nodupb_NoDup (l : list string) : nodupb l = true <-> NoDup l.
Proof.
  induction l as [|x l IH]; simpl.
  - split; [constructor | reflexivity].
  - rewrite andb_true_iff, negb_true_iff, IH. split.
    + intros [Hx Hl]. constructor; [|assumption].
      intros Hin. apply existsb_eqb_In in Hin. congruence.
    + intros H. inversion H as [|? ? Hx Hl]; subst. split; [|assumption].
      destruct (existsb (String.eqb x) l) eqn:E; [|reflexivity].
      apply existsb_eqb_In in E. contradiction.
Qed.

Lemma dict_set_fresh (k : string) (v : json) (d : list (string * json)) :
  ~ In k (map fst d) -> dict_set k v d = d ++ [(k, v)].
Proof.
  induction d as [|[k' v'] d IH]; simpl; [reflexivity|].
  intros H. destruct (String.eqb_spec k k') as [->|Hne].
  - exfalso. apply H. now left.
  - rewrite IH; [reflexivity|]. intros Hin. apply H. now right.
Qed.

Lemma dict_of_items_from (items d : list (string * json)) :
  NoDup (map fst (d ++ items)) ->
  fold_left (fun d kv => dict_set (fst kv) (snd kv) d) items d = d ++ items.
Proof.
  revert d. induction items as [|[k v] items IH]; intros d H; simpl.
  - now rewrite app_nil_r.
  - rewrite dict_set_fresh.
    + rewrite IH; rewrite <- app_assoc; [reflexivity | exact H].
    + rewrite map_app in H. simpl in H.
      apply NoDup_remove_2 in H. intros Hin. apply H.
      apply in_or_app. now left.
Qed.

Lemma dict_of_items_unique (items : list (string * json)) :
  NoDup (map fst items) -> dict_of_items items = items.
Proof. intros H. unfold dict_of_items. now rewrite dict_of_items_from. Qed.

Lemma size_list (l : list json) : size (JList l) = S (total_size l).
Proof. reflexivity. Qed.

Lemma size_dict (kvs : list (string * json)) :
  size (JDict kvs) = S (total_size (map snd kvs)).
Proof.
  simpl. f_equal. induction kvs as [|kv kvs IH]; simpl; [reflexivity|].
  now rewrite IH.
Qed.

Lemma total_size_perm (l l' : list json) :
  Permutation l l' -> total_size l = total_size l'.
Proof.
  induction 1; simpl; lia.
Qed.

Lemma size_pos (v : json) : (1 <= size v)%nat.
Proof. destruct v; simpl; lia. Qed.

Lemma dumps_head (v : json) :
  exists t ts, dumps v = t :: ts /\ opens_value t = true.
Proof.
  destruct v as [|[|]| | | | |]; simpl; eauto.
Qed.

Lemma parse_elements_S (n : nat) (ts : list token) :
  parse_elements (S n) ts
  = match parse_value n ts with
    | Some (v, TComma :: r) =>
        match parse_elements n r with
        | Some (l, r') => Some (v :: l, r')
        | None => None
        end
    | Some (v, TRBracket :: r) => Some ([v], r)
    | _ => None
    end.
Proof. reflexivity. Qed.

Lemma parse_members_S (n : nat) (k : string) (r : list token) :
  parse_members (S n) (TStr k :: TColon :: r)
  = match parse_value n r with
    | Some (v, TComma :: r') =>
        match parse_members n r' with
        | Some (items, r'') => Some ((k, v) :: items, r'')
        | None => None
        end
    | Some (v, TRBrace :: r') => Some ([(k, v)], r')
    | _ => None
    end.
Proof. reflexivity. Qed.

Lemma parse_value_list (n : nat) (t : token) (r : list token) :
  opens_value t = true ->
  parse_value (S n) (TLBracket :: t :: r)
  = match parse_elements n (t :: r) with
    | Some (l, r') => Some (JList l, r')
    | None => None
    end.
Proof. destruct t; try discriminate; reflexivity. Qed.

Lemma parse_value_dict (n : nat) (k : string) (r : list token) :
  parse_value (S n) (TLBrace :: TStr k :: r)
  = match parse_members n (TStr k :: r) with
    | Some (items, r') => Some (JDict (dict_of_items items), r')
    | None => None
    end.
Proof. reflexivity. Qed.

Lemma parse_elements_ok (l : list json) :
  l <> [] -> Forall reads_back l ->
  forall n rest, (total_size l <= n)%nat ->
    parse_elements n (join_tokens (map dumps l) ++ TRBracket :: rest)
    = Some (map sorted_keys l, rest).
Proof.
  induction l as [|v l IH]; [congruence|].
  intros _ Hall n rest Hn. inversion Hall as [|? ? Hv Hl]; subst.
  destruct n as [|n]; [simpl in Hn; lia|]. simpl in Hn.
  rewrite parse_elements_S. destruct l as [|w l].
  - simpl. rewrite Hv by lia. reflexivity.
  - change (join_tokens (map dumps (v :: w :: l)))
      with (dumps v ++ TComma :: join_tokens (map dumps (w :: l))).
    rewrite <- app_assoc. rewrite Hv by lia.
    change ((TComma :: join_tokens (map dumps (w :: l))) ++ TRBracket :: rest)
      with (TComma :: join_tokens (map dumps (w :: l)) ++ TRBracket :: rest).
    cbv iota.
    rewrite IH; [reflexivity | congruence | assumption | simpl in *; lia].
Qed.

Lemma parse_members_ok (l : list (string * json)) :
  l <> [] -> Forall (fun kv => reads_back (snd kv)) l ->
  forall n rest, (total_size (map snd l) <= n)%nat ->
    parse_members n
      (join_tokens (map member_tokens (map (on_value dumps) l))
       ++ TRBrace :: rest)
    = Some (map (on_value sorted_keys) l, rest).
Proof.
  induction l as [|[k v] l IH]; [congruence|].
  intros _ Hall n rest Hn. inversion Hall as [|? ? Hv Hl]; subst.
  simpl in Hv.
  destruct n as [|n]; [simpl in Hn; lia|]. simpl in Hn.
  destruct l as [|[k' w] l].
  - change (join_tokens (map member_tokens (map (on_value dumps) [(k, v)])))
      with (TStr k :: TColon :: dumps v).
    rewrite <- !app_comm_cons.
    rewrite parse_members_S, Hv by lia. reflexivity.
  - change (join_tokens
              (map member_tokens (map (on_value dumps) ((k, v) :: (k', w) :: l))))
      with (TStr k :: TColon :: dumps v
            ++ TComma
               :: join_tokens
                    (map member_tokens (map (on_value dumps) ((k', w) :: l)))).
    rewrite <- !app_comm_cons. rewrite parse_members_S.
    rewrite <- app_assoc. rewrite Hv by lia.
    rewrite <- app_comm_cons. cbv iota.
    rewrite IH; [reflexivity | congruence | assumption | simpl in *; lia].
Qed.

Lemma join_tokens_head (p : list token) (parts : list (list token)) t ts :
  p = t :: ts ->
  exists ts', join_tokens (p :: parts) = t :: ts'.
Proof.
  intros ->. destruct parts; simpl; eauto.
Qed.

Lemma dumps_dict (kvs : list (string * json)) :
  dumps (JDict kvs)
  = TLBrace
    :: join_tokens (map member_tokens (map (on_value dumps) (sort_items kvs)))
    ++ [TRBrace].
Proof.
  change (dumps (JDict kvs))
    with (TLBrace
          :: join_tokens
               (map member_tokens (sort_items (map (on_value dumps) kvs)))
          ++ [TRBrace]).
  now rewrite sort_items_map.
Qed.

Lemma sorted_keys_dict (kvs : list (string * json)) :
  sorted_keys (JDict kvs) = JDict (map (on_value sorted_keys) (sort_items kvs)).
Proof.
  change (sorted_keys (JDict kvs))
    with (JDict (sort_items (map (on_value sorted_keys) kvs))).
  now rewrite sort_items_map.
Qed.

Lemma map_fst_on_value {A B} (g : A -> B) (l : list (string * A)) :
  map fst (map (on_value g) l) = map fst l.
Proof. rewrite map_map. reflexivity. Qed.

Lemma dumps_reads_back (v : json) : unique_keys v = true -> reads_back v.
Proof.
  induction v as [|b|z|f|s|l IH|kvs IH] using json_nested_ind;
    intros Hu n rest Hn;
    (destruct n as [|n]; [pose proof (size_pos (JNull)); simpl in Hn; lia|]).
  - reflexivity.
  - destruct b; reflexivity.
  - reflexivity.
  - reflexivity.
  - reflexivity.
  - assert (Hall : Forall reads_back l).
    { simpl in Hu. rewrite forallb_forall in Hu. rewrite Forall_forall in *.
      intros x Hx. apply IH; auto. }
    rewrite size_list in Hn.
    change (dumps (JList l))
      with (TLBracket :: join_tokens (map dumps l) ++ [TRBracket]).
    rewrite <- app_comm_cons, <- app_assoc. simpl ([TRBracket] ++ rest).
    destruct l as [|x l]; [reflexivity|].
    destruct (dumps_head x) as (t & ts & Hx & Ht).
    destruct (join_tokens_head _ (map dumps l) _ _ Hx) as (ts' & HJ).
    pose proof (parse_elements_ok (x :: l) ltac:(congruence) Hall n rest
                  ltac:(lia)) as P.
    change (map dumps (x :: l)) with (dumps x :: map dumps l) in *.
    rewrite HJ in *. rewrite <- app_comm_cons in *.
    rewrite parse_value_list by assumption. rewrite P. reflexivity.
  - simpl in Hu. apply andb_true_iff in Hu as [Hnd Hu].
    apply nodupb_NoDup in Hnd.
    assert (Hperm : Permutation (sort_items kvs) kvs) by apply sort_items_perm.
    assert (Hall : Forall (fun kv => reads_back (snd kv)) (sort_items kvs)).
    { rewrite forallb_forall in Hu. rewrite Forall_forall in *.
      intros kv Hkv. apply IH; apply (Permutation_in _ Hperm) in Hkv; auto. }
    rewrite size_dict in Hn.
    rewrite (total_size_perm _ _ (Permutation_map snd (Permutation_sym Hperm)))
      in Hn.
    rewrite dumps_dict, sorted_keys_dict.
    rewrite <- app_comm_cons, <- app_assoc. simpl ([TRBrace] ++ rest).
    assert (Hkeys : NoDup (map fst (map (on_value sorted_keys) (sort_items kvs)))).
    { rewrite map_fst_on_value.
      eapply Permutation_NoDup; [|exact Hnd].
      apply Permutation_map. now apply Permutation_sym. }
    destruct (sort_items kvs) as [|[k x] l] eqn:Es; [reflexivity|].
    pose proof (parse_members_ok ((k, x) :: l) ltac:(congruence) Hall n rest
                  ltac:(lia)) as P.
    destruct (join_tokens_head (member_tokens (on_value dumps (k, x)))
                (map member_tokens (map (on_value dumps) l))
                (TStr k) (TColon :: dumps x) eq_refl) as (ts' & HJ).
    change (map member_tokens (map (on_value dumps) ((k, x) :: l)))
      with (member_tokens (on_value dumps (k, x))
            :: map member_tokens (map (on_value dumps) l)) in *.
    rewrite HJ in *.
    rewrite <- app_comm_cons in *.
    rewrite parse_value_dict. rewrite P.
    rewrite dict_of_items_unique by assumption. reflexivity.
Qed.

Lemma total_size_elements (l : list json) :
  Forall (fun v => (size v <= List.length (dumps v))%nat) l ->
  (total_size l <= S (List.length (join_tokens (map dumps l))))%nat.
Proof.
  induction l as [|v l IH]; intros H; [simpl; lia|].
  inversion H as [|? ? Hv Hl]; subst. specialize (IH Hl).
  destruct l as [|w l].
  - simpl. lia.
  - change (join_tokens (map dumps (v :: w :: l)))
      with (dumps v ++ TComma :: join_tokens (map dumps (w :: l))).
    rewrite length_app. cbn [List.length].
    change (total_size (v :: w :: l))
      with (S (size v + total_size (w :: l))). lia.
Qed.

Lemma total_size_members (l : list (string * json)) :
  Forall (fun kv => (size (snd kv) <= List.length (dumps (snd kv)))%nat) l ->
  (total_size (map snd l)
   <= S (List.length
           (join_tokens (map member_tokens (map (on_value dumps) l)))))%nat.
Proof.
  induction l as [|[k v] l IH]; intros H; [simpl; lia|].
  inversion H as [|? ? Hv Hl]; subst. specialize (IH Hl). simpl in Hv.
  destruct l as [|[k' w] l].
  - simpl. lia.
  - change (join_tokens
              (map member_tokens (map (on_value dumps) ((k, v) :: (k', w) :: l))))
      with ((TStr k :: TColon :: dumps v)
            ++ TComma
               :: join_tokens
                    (map member_tokens (map (on_value dumps) ((k', w) :: l)))).
    rewrite length_app. cbn [List.length].
    change (total_size (map snd ((k, v) :: (k', w) :: l)))
      with (S (size v + total_size (map snd ((k', w) :: l)))). lia.
Qed.

Lemma size_le_tokens (v : json) : (size v <= List.length (dumps v))%nat.
Proof.
  induction v as [|b|z|f|s|l IH|kvs IH] using json_nested_ind;
    try (simpl; lia).
  - destruct b; simpl; lia.
  - rewrite size_list.
    change (dumps (JList l))
      with (TLBracket :: join_tokens (map dumps l) ++ [TRBracket]).
    cbn [List.length]. rewrite length_app. cbn [List.length].
    pose proof (total_size_elements l IH). lia.
  - rewrite size_dict, dumps_dict.
    pose proof (sort_items_perm kvs) as Hperm.
    rewrite (total_size_perm _ _ (Permutation_map snd (Permutation_sym Hperm))).
    assert (Hall : Forall
      (fun kv => (size (snd kv) <= List.length (dumps (snd kv)))%nat)
      (sort_items kvs)).
    { rewrite Forall_forall in *. intros kv Hkv.
      apply IH. eapply Permutation_in; eassumption. }
    cbn [List.length]. rewrite length_app. cbn [List.length].
    pose proof (total_size_members _ Hall). lia.
Qed.

(** Reading the text of a value gives the value back, the members of its
    objects in key order. *)
Lemma loads_dumps (v : json) :
  unique_keys v = true -> loads (dumps v) = Some (sorted_keys v).
Proof.
  intros Hu. unfold loads.
  pose proof (dumps_reads_back v Hu (S (List.length (dumps v))) []) as P.
  rewrite app_nil_r in P. rewrite P; [reflexivity|].
  pose proof (size_le_tokens v). lia.
Qed.

Lemma sorted_keys_scalar (v : json) :
  json_scalar v = true -> sorted_keys v = v.
Proof. destruct v; simpl; congruence. Qed.

Lemma assoc_insert_item {A} (k k' : string) (a : A) l :
  ~ In k' (map fst l) ->
  assoc k (insert_item k' a l)
  = if (k =? k')%string then Some a else assoc k l.
Proof.
  induction l as [|[k1 a1] l IH]; simpl; [reflexivity|].
  intros H. destruct (String.leb k' k1); simpl; [reflexivity|].
  rewrite IH by tauto.
  destruct (String.eqb_spec k k1) as [->|]; [|reflexivity].
  destruct (String.eqb_spec k1 k') as [->|]; [|reflexivity].
  exfalso. apply H. now left.
Qed.

Lemma assoc_sort_items {A} (k : string) (l : list (string * A)) :
  NoDup (map fst l) -> assoc k (sort_items l) = assoc k l.
Proof.
  induction l as [|[k1 a1] l IH]; simpl; [reflexivity|].
  intros H. inversion H as [|? ? Hk Hl]; subst.
  rewrite assoc_insert_item.
  - now rewrite IH.
  - intros Hin. apply Hk.
    eapply Permutation_in; [|exact Hin].
    apply Permutation_map, sort_items_perm.
Qed.

(* ------------------------------------------------------------------ *)
(** ** The response of a successful lookup, written and read back *)

Lemma row_has_dtypes_length (ds : list dtype) (r : list cell) :
  row_has_dtypes ds r = true -> List.length r = List.length ds.
Proof.
  revert r. induction ds as [|d ds IH]; intros [|c r]; simpl;
    try discriminate; [reflexivity|].
  intros H. apply andb_true_iff in H as [_ H]. f_equal. auto.
Qed.

Lemma combine_keys {A} (ks : list string) (vs : list A) :
  List.length vs = List.length ks -> map fst (combine ks vs) = ks.
Proof.
  revert vs. induction ks as [|k ks IH]; intros [|v vs]; simpl;
    try discriminate; [reflexivity|].
  intros [= H]. f_equal. auto.
Qed.

Lemma well_formed_inv (df : DataFrame) :
  well_formed df = true ->
  NoDup (columns df)
  /\ forall r, In r (rows df) -> List.length r = List.length (columns df).
Proof.
  unfold well_formed. intros H. apply andb_true_iff in H as [Hn Hr].
  split; [now apply nodupb_NoDup|].
  intros r Hin. rewrite forallb_forall in Hr.
  rewrite (row_has_dtypes_length _ _ (Hr r Hin)).
  unfold dtypes, columns. now rewrite !length_map.
Qed.

Lemma row_series_length (ds : list dtype) (r : list cell) :
  List.length (row_series ds r) = List.length r.
Proof.
  unfold row_series.
  destruct (forallb is_numeric ds && existsb is_float ds);
    [apply length_map | reflexivity].
Qed.

Lemma series_of_dict_keys (d : list (string * cell)) :
  map fst (series_of_dict d) = map fst d.
Proof.
  unfold series_of_dict.
  destruct (forallb cell_is_number (map snd d)
            && existsb cell_is_float (map snd d)); [|reflexivity].
  rewrite map_map. reflexivity.
Qed.

Lemma row_to_dict_keys (df : DataFrame) (r : list cell) :
  List.length r = List.length (columns df) ->
  map fst (row_to_dict df r) = columns df.
Proof.
  intros H. unfold row_to_dict. apply combine_keys.
  now rewrite row_series_length.
Qed.

Section RoundTrip.
Context {rt : PyRuntime}.

Lemma cell_to_json_scalar (c : cell) : json_scalar (cell_to_json c) = true.
Proof. destruct c as [z|[| |m e]|b|s]; reflexivity. Qed.

Lemma series_items_keys (s : list (string * cell)) :
  map fst (series_items s) = map fst s.
Proof. unfold series_items. rewrite map_map. reflexivity. Qed.

Lemma series_items_scalar (s : list (string * cell)) :
  forallb (fun kv => json_scalar (snd kv)) (series_items s) = true.
Proof.
  apply forallb_forall. intros kv Hin. unfold series_items in Hin.
  apply in_map_iff in Hin as (x & <- & _). apply cell_to_json_scalar.
Qed.

Lemma scalars_unique_keys (l : list (string * json)) :
  forallb (fun kv => json_scalar (snd kv)) l = true ->
  forallb (fun kv => unique_keys (snd kv)) l = true.
Proof.
  rewrite !forallb_forall. intros H kv Hin. specialize (H kv Hin).
  destruct (snd kv); simpl in *; congruence.
Qed.

Lemma series_unique_keys (s : list (string * cell)) :
  NoDup (map fst s) -> unique_keys (series_to_json s) = true.
Proof.
  intros H. change (series_to_json s) with (JDict (series_items s)). simpl.
  apply andb_true_iff. split.
  - apply nodupb_NoDup. now rewrite series_items_keys.
  - apply scalars_unique_keys, series_items_scalar.
Qed.

Lemma records_unique_keys (df : DataFrame) :
  well_formed df = true ->
  unique_keys (frame_to_json_records (head 10 df)) = true.
Proof.
  intros Hwf. destruct (well_formed_inv df Hwf) as [Hn Hlen].
  unfold frame_to_json_records. simpl. apply forallb_forall.
  intros v Hin. apply in_map_iff in Hin as (r & <- & Hr).
  apply series_unique_keys.
  change (columns (head 10 df)) with (columns df).
  rewrite combine_keys; [assumption|].
  apply Hlen. rewrite <- (firstn_skipn 10 (rows df)).
  apply in_or_app. left. exact Hr.
Qed.

End RoundTrip.

Lemma sort_blocks {A} (a b c d e : A) :
  Json.sort_items
    [ ("block_ribbon", a); ("block_middle_upper", b);
      ("block_middle_lower", c); ("block_nearest_neighbors", d);
      ("block_right", e) ]
  = [ ("block_middle_lower", c); ("block_middle_upper", b);
      ("block_nearest_neighbors", d); ("block_ribbon", a);
      ("block_right", e) ].
Proof. reflexivity. Qed.

Lemma sorted_keys_scalars (l : list (string * json)) :
  forallb (fun kv => json_scalar (snd kv)) l = true ->
  map (on_value Json.sorted_keys) l = l.
Proof.
  induction l as [|[k v] l IH]; simpl; [reflexivity|].
  intros H. apply andb_true_iff in H as [Hv Hl].
  unfold on_value at 1. simpl. rewrite sorted_keys_scalar by assumption.
  now rewrite IH.
Qed.

Lemma forallb_perm {A} (p : A -> bool) (l l' : list A) :
  Permutation l l' -> forallb p l = true -> forallb p l' = true.
Proof.
  intros Hp. rewrite !forallb_forall. intros H x Hx. apply H.
  eapply Permutation_in; [apply Permutation_sym|]; eassumption.
Qed.

Section Response.
Context {rt : PyRuntime}.

(** C9.  For a successful lookup on a well-formed table, the text of the
    [/on_predict] response reads back as an object whose [output] has
    exactly the five blocks; the [retrieved] mapping of its ribbon has
    exactly the column names of the table as keys, each once, every value
    is null, a boolean, a number or a string, and each key has the value
    it had in the result of [build_prediction_output]. *)
Theorem response_reads_back (df : DataFrame) (n : Z) (s : string) (out : json) :
  well_formed df = true ->
  int_of_str s = Some n ->
  build_prediction_output (Present (Ok df)) n = Ok out ->
  exists lower upper neighbors right rid retrieved,
    match response_text (fst (on_predict (Present (Ok df)) (Some s))) with
    | Some text => Json.loads text
    | None => None
    end
    = Some (JDict
        [ ("output",
           JDict
             [ ("block_middle_lower", lower);
               ("block_middle_upper", upper);
               ("block_nearest_neighbors", neighbors);
               ("block_ribbon",
                JDict [ ("id", JInt rid); ("retrieved", JDict retrieved) ]);
               ("block_right", right) ]) ])
    /\ Permutation (map fst retrieved) (columns df)
    /\ NoDup (map fst retrieved)
    /\ forallb (fun kv => json_scalar (snd kv)) retrieved = true
    /\ forall k,
         assoc k retrieved = json_path ["block_ribbon"; "retrieved"; k] out.
Proof.
  intros Hwf Hs Hb. destruct (well_formed_inv df Hwf) as [Hn Hlen].
  unfold on_predict. rewrite Hs, Hb. cbn [fst response_text].
  apply build_ok_inv in Hb as (df0 & first & rest & [= <-] & Hsel & Hb).
  apply output_for_ok_inv in Hb as (fit & rid & _ & _ & ->).
  apply select_eq_first in Hsel as [Hin _].
  set (d := series_of_dict (row_to_dict df first)).
  assert (Hkeys : map fst (series_items d) = columns df).
  { rewrite series_items_keys. unfold d. rewrite series_of_dict_keys.
    apply row_to_dict_keys. now apply Hlen. }
  assert (Hnd : NoDup (map fst (series_items d))) by now rewrite Hkeys.
  pose proof (series_items_scalar d) as Hsc.
  pose proof (sort_items_perm (series_items d)) as Hperm.
  exists (Json.sorted_keys
            (JDict [ ("table_rows", frame_to_json_records (head 10 df));
                     ("columns", JList (map JStr (columns df))) ])),
         (JDict [ ("is_fit", JInt fit); ("key_factors", JStr key_factors_text) ]),
         (JDict [ ("Nearest neighbors", JStr "Nearest neighbors") ]),
         (JDict [ ("narrative", JStr (narrative_text n fit)) ]),
         rid, (Json.sort_items (series_items d)).
  split; [|split; [|split; [|split]]].
  - rewrite loads_dumps.
    + f_equal. rewrite sorted_keys_dict. simpl Json.sort_items.
      simpl map. unfold on_value at 1. simpl fst. simpl snd.
      do 3 f_equal. rewrite sorted_keys_dict, sort_blocks.
      simpl map. unfold on_value. simpl fst. simpl snd.
      f_equal. f_equal. f_equal. f_equal. f_equal.
      change (series_to_json d) with (JDict (series_items d)).
      rewrite !sorted_keys_dict. simpl Json.sort_items. simpl map.
      unfold on_value at 1 2. simpl fst. simpl snd.
      rewrite sorted_keys_dict.
      rewrite sorted_keys_scalars by (eapply forallb_perm;
        [apply Permutation_sym; exact Hperm | exact Hsc]).
      reflexivity.
    + change (series_to_json d) with (JDict (series_items d)).
      apply nodupb_NoDup in Hnd.
      cbn -[frame_to_json_records series_items nodupb columns].
      rewrite (records_unique_keys df Hwf).
      cbn -[series_items nodupb columns]. rewrite Hnd.
      rewrite (scalars_unique_keys _ Hsc).
      assert (Hc : forallb Json.unique_keys (map JStr (columns df)) = true).
      { apply forallb_forall. intros x Hx.
        apply in_map_iff in Hx as (k & <- & _). reflexivity. }
      rewrite Hc. reflexivity.
  - rewrite <- Hkeys. apply Permutation_map. exact Hperm.
  - eapply Permutation_NoDup; [|exact Hnd].
    apply Permutation_map, Permutation_sym, Hperm.
  - eapply forallb_perm; [apply Permutation_sym; exact Hperm | exact Hsc].
  - intros k. rewrite assoc_sort_items by assumption.
    change (series_to_json d) with (JDict (series_items d)).
    cbn -[series_items]. destruct (assoc k (series_items d)); reflexivity.
Qed.

End Response.

(* ------------------------------------------------------------------ *)
(** ** The theorems on the sample tables *)


(** An id of 54 bits in a table whose other column is a float column is
    found, but the ribbon carries the id rounded to binary64. *)
Example wide_id_is_rounded :
  id_present Sample.wide_table 9007199254740993
  /\ json_path ["block_ribbon"; "id"]
       (Sample.output_of Sample.wide_table 9007199254740993)
     = Some (JInt 9007199254740992).
Proof.
  split.
  - exists [VInt 9007199254740993; VFloat (FNum 3 (-1))],
      (VInt 9007199254740993). simpl. auto.
  - vm_compute. reflexivity.
Qed.

(** The row of id 4 in [graded_table] has [is_fit] 2, and 2 is the flag
    of the result: neither 0 nor 1. *)
Lemma fit_flag_can_be_two :
  build_prediction_output (rt := Sample.runtime)
    (Present (Ok Sample.graded_table)) 4 = Ok Sample.graded_output
  /\ json_path ["block_middle_upper"; "is_fit"] Sample.graded_output
     = Some (JInt 2)
  /\ 2 <> 0 /\ 2 <> 1.
Proof. repeat split; try reflexivity; discriminate. Qed.


Lemma fit_flag_is_cell_value_witness :
  build_prediction_output (rt := Sample.runtime)
    (Present (Ok Sample.fit_table)) 2 = Ok Sample.fit_output
  /\ exists flag,
       json_path ["block_middle_upper"; "is_fit"] Sample.fit_output
       = Some (JInt flag)
       /\ (has_column "is_fit" Sample.fit_table = false -> flag = 0)
       /\ (forall first rest c,
             select_eq Sample.fit_table "id" 2 = Ok (first :: rest) ->
             row_get Sample.fit_table "is_fit" first = Some c ->
             (cell_holds c 0 -> flag = 0)
             /\ (cell_holds c 1 -> flag = 1)
             /\ (forall b, exact_float b = true -> cell_holds c b -> flag = b)).
Proof.
  split; [reflexivity|].
  apply (fit_flag_is_cell_value (rt := Sample.runtime) Sample.fit_table 2).
  reflexivity.
Defined.

(** The id [2^53 + 1] is in no cell of [float_id_table], yet the lookup
    finds the row whose id is [2^53]: the float64 id column is compared
    with the id rounded to binary64, and the endpoints answer with that
    other record. *)
Lemma absent_id_matches_rounded_cell :
  (forall r c,
     In r (rows Wide.float_id_table) ->
     row_get Wide.float_id_table "id" r = Some c ->
     ~ cell_holds c 9007199254740993)
  /\ build_prediction_output (rt := Sample.runtime)
       (Present (Ok Wide.float_id_table)) 9007199254740993
     = Ok (Sample.output_of Wide.float_id_table 9007199254740993)
  /\ json_path ["block_ribbon"; "id"]
       (Sample.output_of Wide.float_id_table 9007199254740993)
     = Some (JInt 9007199254740992)
  /\ fst (on_predict (rt := Sample.runtime)
            (Present (Ok Wide.float_id_table)) (Some "9007199254740993"))
     = JsonResponse 200
         (JDict [ ("output",
                   Sample.output_of Wide.float_id_table 9007199254740993) ])
  /\ fst (result_page (rt := Sample.runtime)
            (Present (Ok Wide.float_id_table)) (Some "9007199254740993"))
     = Rendered "result.html"
         [ ("output",
            Sample.output_of Wide.float_id_table 9007199254740993) ].
Proof.
  split.
  - intros r c [<- | [<- | []]] Hc; vm_compute in Hc; injection Hc as <-;
      simpl; [|tauto].
    intros [[_ H] | [H _]]; [discriminate H | lia].
  - repeat split; vm_compute; reflexivity.
Qed.

Lemma unmatched_id_is_not_found_witness :
  has_column "id" Wide.float_id_table = true
  /\ assoc "id" (schema Wide.float_id_table) = Some Float64
  /\ Float64.of_Z 5 = Some (FNum 5 0)
  /\ build_prediction_output (rt := Sample.runtime)
       (Present (Ok Wide.float_id_table)) 5
     = Raise (ValueError "No record found for id 5")
  /\ fst (on_predict (rt := Sample.runtime)
            (Present (Ok Wide.float_id_table)) (Some "5"))
     = JsonResponse 400 (error_body "No record found for id 5")
  /\ fst (result_page (rt := Sample.runtime)
            (Present (Ok Wide.float_id_table)) (Some "5"))
     = Redirect "/".
Proof.
  split; [reflexivity|]. split; [reflexivity|]. split; [reflexivity|].
  destruct (unmatched_id_is_not_found (rt := Sample.runtime)
              Wide.float_id_table 5 eq_refl) as (Hb & _ & Hs).
  - intros r c [<- | [<- | []]] Hc; vm_compute in Hc; injection Hc as <-;
      simpl; [|tauto].
    intros [[_ H] | [H _]]; [discriminate H | lia].
  - intros _. exists (FNum 5 0). split; [reflexivity|].
    intros r f [<- | [<- | []]] Hc; vm_compute in Hc; injection Hc as <-;
      reflexivity.
  - split; [exact Hb|]. exact (Hs "5"%string eq_refl).
Defined.

Lemma narrative_names_id_and_label_witness :
  build_prediction_output (rt := Sample.runtime)
    (Present (Ok Sample.fit_table)) 2 = Ok Sample.fit_output
  /\ exists flag text,
       json_path ["block_middle_upper"; "is_fit"] Sample.fit_output
       = Some (JInt flag)
       /\ json_path ["block_right"; "narrative"] Sample.fit_output
          = Some (JStr text)
       /\ contains (str_of_int 2) text
       /\ (flag = 1 ->
           text = ("For the id " ++ str_of_int 2
                   ++ ", it is predicted as the person is fit")%string
           /\ contains "fit" text)
       /\ (flag = 0 ->
           text = ("For the id " ++ str_of_int 2
                   ++ ", it is predicted as the person is not fit")%string
           /\ contains "not fit" text).
Proof.
  split; [reflexivity|].
  apply (narrative_names_id_and_label (rt := Sample.runtime)
           (Present (Ok Sample.fit_table)) 2).
  reflexivity.
Defined.

Lemma preview_is_table_head_witness :
  build_prediction_output (rt := Sample.runtime)
    (Present (Ok Sample.twin_table)) 5 = Ok Sample.twin_output
  /\ json_path ["block_middle_lower"; "columns"] Sample.twin_output
     = Some (JList [JStr "id"; JStr "name"])
  /\ (List.length (firstn 10 (rows Sample.twin_table)) <= 10)%nat.
Proof.
  split; [reflexivity|].
  destruct (preview_is_table_head (rt := Sample.runtime) Sample.twin_table 5
              Sample.twin_output eq_refl) as (_ & Hlen & _ & Hcols & _).
  split; [exact Hcols | exact Hlen].
Defined.

Lemma bad_id_parameter_is_rejected_witness :
  int_of_str (PyRuntime := Sample.runtime) "x9" = None
  /\ on_predict (rt := Sample.runtime)
       (Present (Ok Sample.fit_table)) (Some "x9")
     = (JsonResponse 400 (error_body "'id' must be an integer"), [])
  /\ result_page (rt := Sample.runtime)
       (Present (Ok Sample.fit_table)) (Some "x9")
     = (Redirect "/", []).
Proof.
  split; [reflexivity|].
  destruct (bad_id_parameter_is_rejected (rt := Sample.runtime)
              (Present (Ok Sample.fit_table)) (Some "x9"%string))
    as ((msg & H1) & H2 & _).
  - right. exists "x9"%string. split; reflexivity.
  - split; [reflexivity | exact H2].
Defined.

Lemma schema_and_source_errors_witness :
  has_column "id" Sample.anonymous_table = false
  /\ build_prediction_output (rt := Sample.runtime)
       (Present (Ok Sample.anonymous_table)) 5
     = Raise (ValueError "CSV must contain an 'id' column").
Proof.
  split; [reflexivity|].
  exact (proj1 (schema_and_source_errors (rt := Sample.runtime)
                  Sample.anonymous_table 5 eq_refl)).
Defined.

Lemma first_matching_row_wins_witness :
  rows Sample.twin_table
  = [] ++ [VInt 5; VStr "ann"]
       :: [ [VInt 8; VStr "bob"]; [VInt 5; VStr "cy"] ]
  /\ row_matches Sample.twin_table "id" 5 [VInt 5; VStr "ann"] = true
  /\ row_matches Sample.twin_table "id" 5 [VInt 5; VStr "cy"] = true
  /\ build_prediction_output (rt := Sample.runtime)
       (Present (Ok Sample.twin_table)) 5
     = output_for (rt := Sample.runtime) Sample.twin_table 5
         [VInt 5; VStr "ann"].
Proof.
  split; [reflexivity|]. split; [reflexivity|]. split; [reflexivity|].
  exact (proj1 (first_matching_row_wins (rt := Sample.runtime)
                  Sample.twin_table 5 [] [VInt 5; VStr "ann"]
                  [ [VInt 8; VStr "bob"]; [VInt 5; VStr "cy"] ]
                  eq_refl eq_refl eq_refl)).
Defined.

Lemma empty_fit_cell_is_an_error_witness :
  select_eq Sample.gap_table "id" 7 = Ok [ [VInt 7; VFloat FNaN] ]
  /\ row_get Sample.gap_table "is_fit" [VInt 7; VFloat FNaN]
     = Some (VFloat FNaN)
  /\ build_prediction_output (rt := Sample.runtime)
       (Present (Ok Sample.gap_table)) 7
     = Raise (ValueError "cannot convert float NaN to integer").
Proof.
  split; [reflexivity|]. split; [reflexivity|].
  exact (proj1 (empty_fit_cell_is_an_error (rt := Sample.runtime)
                  Sample.gap_table 7 [VInt 7; VFloat FNaN] []
                  eq_refl eq_refl)).
Defined.

Lemma response_reads_back_witness :
  well_formed Sample.twin_table = true
  /\ int_of_str (PyRuntime := Sample.runtime) "5" = Some 5
  /\ build_prediction_output (rt := Sample.runtime)
       (Present (Ok Sample.twin_table)) 5 = Ok Sample.twin_output
  /\ exists lower upper neighbors right rid retrieved,
       match response_text
               (fst (on_predict (rt := Sample.runtime)
                       (Present (Ok Sample.twin_table)) (Some "5")))
       with
       | Some text => Json.loads text
       | None => None
       end
       = Some (JDict
           [ ("output",
              JDict
                [ ("block_middle_lower", lower);
                  ("block_middle_upper", upper);
                  ("block_nearest_neighbors", neighbors);
                  ("block_ribbon",
                   JDict [ ("id", JInt rid); ("retrieved", JDict retrieved) ]);
                  ("block_right", right) ]) ])
       /\ Permutation (map fst retrieved) (columns Sample.twin_table).
Proof.
  split; [reflexivity|]. split; [reflexivity|]. split; [reflexivity|].
  destruct (response_reads_back (rt := Sample.runtime) Sample.twin_table 5
              "5" Sample.twin_output eq_refl eq_refl eq_refl)
    as (lower & upper & neighbors & right & rid & retrieved & H1 & H2 & _).
  exists lower, upper, neighbors, right, rid, retrieved. split; assumption.
Defined.

(* ------------------------------------------------------------------ *)
(** ** The two lookup endpoints side by side *)

Section Endpoints.
Context {rt : PyRuntime}.

(** [/on_predict] always answers with JSON: status 200 with the output
    exactly when the parameter is an integer text on which the lookup
    succeeds, status 400 with an error message otherwise; the lookup is
    called once when the parameter is an integer text and never
    otherwise. *)
Theorem on_predict_outcomes (src : source) (id_param : option string) :
  (exists s n out,
     id_param = Some s /\ int_of_str s = Some n
     /\ build_prediction_output src n = Ok out
     /\ on_predict src id_param
        = (JsonResponse 200 (JDict [ ("output", out) ]), [EvBuild n]))
  \/ (exists msg calls,
        on_predict src id_param = (JsonResponse 400 (error_body msg), calls)
        /\ (forall s n, id_param = Some s -> int_of_str s = Some n ->
            calls = [EvBuild n]
            /\ exists e, build_prediction_output src n = Raise e
                         /\ msg = exn_str e)
        /\ ((id_param = None
             \/ exists s, id_param = Some s /\ int_of_str s = None) ->
            calls = [])).
Proof.
  unfold on_predict. destruct id_param as [s|].
  - destruct (int_of_str s) as [n|] eqn:Hs.
    + destruct (build_prediction_output src n) as [out|e] eqn:Hb.
      * left. exists s, n, out. auto.
      * right. exists (exn_str e), [EvBuild n]. split; [reflexivity|]. split.
        -- intros s' n' [= <-] Hs'. rewrite Hs in Hs'. injection Hs' as <-.
           split; [reflexivity|]. exists e. auto.
        -- intros [H|(s' & [= <-] & H)]; congruence.
    + right. eexists _, []. split; [reflexivity|]. split.
      * intros s' n' [= <-] Hs'. congruence.
      * reflexivity.
  - right. eexists _, []. split; [reflexivity|]. split.
    + intros s' n' H. discriminate H.
    + reflexivity.
Qed.

(** [/result] renders [result.html] with an output exactly when
    [/on_predict] answers 200 with that output, redirects to the listing
    page exactly when [/on_predict] answers 400, and makes the same calls
    to the lookup. *)
Theorem result_page_mirrors_on_predict (src : source) (id_param : option string) :
  (forall out,
     fst (on_predict src id_param)
     = JsonResponse 200 (JDict [ ("output", out) ])
     <-> fst (result_page src id_param)
         = Rendered "result.html" [ ("output", out) ])
  /\ ((exists msg,
         fst (on_predict src id_param) = JsonResponse 400 (error_body msg))
      <-> fst (result_page src id_param) = Redirect index_url)
  /\ snd (on_predict src id_param) = snd (result_page src id_param).
Proof.
  unfold on_predict, result_page. destruct id_param as [s|].
  - destruct (int_of_str s) as [n|].
    + destruct (build_prediction_output src n) as [o|e]; simpl.
      * split; [|split; [|reflexivity]].
        -- intros out. split; intros [= ->]; reflexivity.
        -- split; [intros [msg H]; discriminate H | discriminate].
      * split; [|split; [|reflexivity]].
        -- intros out. split; discriminate.
        -- split; [reflexivity | eauto].
    + simpl. split; [|split; [|reflexivity]].
      * intros out. split; discriminate.
      * split; [reflexivity | eauto].
  - simpl. split; [|split; [|reflexivity]].
    + intros out. split; discriminate.
    + split; [reflexivity | eauto].
Qed.

(** When the CSV file is absent, a request with an integer id gets status
    400 from [/on_predict] with the loader's message, which names
    [CSV_PATH]; [/result] redirects to the listing page; and the listing
    page itself raises the loader's [FileNotFoundError]. *)
Theorem absent_file_on_every_endpoint (s : string) (n : Z) :
  int_of_str s = Some n ->
  exists msg,
    load_dataframe Absent = Raise (FileNotFoundError msg)
    /\ contains CSV_PATH msg
    /\ on_predict Absent (Some s)
       = (JsonResponse 400 (error_body msg), [EvBuild n])
    /\ result_page Absent (Some s) = (Redirect index_url, [EvBuild n])
    /\ index Absent = Raise (FileNotFoundError msg).
Proof.
  intros Hs. eexists. split; [reflexivity|]. split; [apply contains_middle|].
  unfold on_predict, result_page. rewrite Hs. simpl. auto.
Qed.

(** The listing page needs no [id] column and has no row limit: on every
    table that is read it renders [index.html] with one record per row,
    in table order, each the row's cells under the column names, and with
    all the column names; it does so on a table without an [id] column
    too, where every lookup raises. *)
Theorem index_lists_every_row (df : DataFrame) :
  exists records,
    index (Present (Ok df))
    = Ok (Rendered "index.html"
            [ ("records", JList records);
              ("columns", JList (map JStr (columns df))) ])
    /\ List.length records = List.length (rows df)
    /\ (forall i r,
          nth_error (rows df) i = Some r ->
          nth_error records i
          = Some (JDict (map (on_value cell_to_py) (combine (columns df) r))))
    /\ (has_column "id" df = false ->
        forall n, exists e,
          build_prediction_output (Present (Ok df)) n = Raise e).
Proof.
  exists (frame_to_dict_records df). split; [reflexivity|].
  unfold frame_to_dict_records. split; [apply length_map|]. split.
  - intros i r H. rewrite nth_error_map, H. reflexivity.
  - intros H n. eexists. apply build_without_id. exact H.
Qed.

End Endpoints.

(* ------------------------------------------------------------------ *)
(** ** More on the result of a lookup *)

Lemma append_cancel_l (a b c : string) :
  (a ++ b)%string = (a ++ c)%string -> b = c.
Proof. induction a as [|x a IH]; simpl; [auto | intros [= H]; auto]. Qed.

Lemma assoc_on_value {A B} (g : A -> B) (k : string) (l : list (string * A)) :
  assoc k (map (on_value g) l) = option_map g (assoc k l).
Proof.
  induction l as [|[k' a] l IH]; simpl; [reflexivity|].
  destruct (k =? k')%string; [reflexivity | exact IH].
Qed.

Lemma to_float_cell_twice (c : cell) :
  to_float_cell (to_float_cell c) = to_float_cell c.
Proof.
  destruct c as [z| | |]; simpl; try reflexivity.
  destruct (Float64.of_Z z) eqn:E; simpl; [reflexivity | now rewrite E].
Qed.

Lemma series_of_dict_assoc (d : list (string * cell)) (k : string) :
  assoc k (series_of_dict d) = assoc k d
  \/ assoc k (series_of_dict d) = option_map to_float_cell (assoc k d).
Proof.
  unfold series_of_dict.
  destruct (forallb cell_is_number (map snd d)
            && existsb cell_is_float (map snd d)); [|now left].
  right. apply (assoc_on_value to_float_cell).
Qed.

Lemma assoc_schema_has_column (df : DataFrame) (name : string) (d : dtype) :
  assoc name (schema df) = Some d -> has_column name df = true.
Proof.
  intros H. apply existsb_eqb_In. unfold columns.
  induction (schema df) as [|[k x] l IH]; simpl in *; [discriminate|].
  destruct (String.eqb_spec name k) as [->|]; [now left | right; auto].
Qed.

Section Results.
Context {rt : PyRuntime}.

(** The narrative of a successful lookup ends with "is fit" exactly when
    the fit flag is 1; for every other flag, not only 0, it ends with
    "is not fit". *)
Theorem narrative_label_follows_flag (src : source) (n : Z) (out : json) :
  build_prediction_output src n = Ok out ->
  exists flag text,
    json_path ["block_middle_upper"; "is_fit"] out = Some (JInt flag)
    /\ json_path ["block_right"; "narrative"] out = Some (JStr text)
    /\ (flag = 1
        <-> text = ("For the id " ++ str_of_int n
                    ++ ", it is predicted as the person is fit")%string)
    /\ (flag <> 1
        <-> text = ("For the id " ++ str_of_int n
                    ++ ", it is predicted as the person is not fit")%string).
Proof.
  intros H. apply build_ok_inv in H as (df & first & rest & -> & _ & H).
  apply output_for_ok_inv in H as (fit & rid & _ & _ & ->).
  exists fit, (narrative_text n fit). split; [reflexivity|].
  split; [reflexivity|]. unfold narrative_text.
  destruct (Z.eqb_spec fit 1) as [->|Hne].
  - split; split; try reflexivity; try congruence.
    intros H. apply append_cancel_l, append_cancel_l in H.
    discriminate H.
  - split; split; try reflexivity; try congruence.
    intros H. apply append_cancel_l, append_cancel_l in H.
    discriminate H.
Qed.

(** Every successful lookup returns the same five blocks in the same
    order, and two of them do not depend on the record: [key_factors] is
    the fixed sentence "I think the prediction was fit because ..." even
    when the flag is not 1, and the neighbours block is the fixed pair. *)
Theorem static_blocks (src : source) (n : Z) (out : json) :
  build_prediction_output src n = Ok out ->
  (exists items,
     out = JDict items
     /\ map fst items
        = [ "block_ribbon"; "block_middle_upper"; "block_middle_lower";
            "block_nearest_neighbors"; "block_right" ])
  /\ json_path ["block_middle_upper"; "key_factors"] out
     = Some (JStr
         "I think the prediction was fit because of training frequency, cardio score, and diet consistency.")
  /\ json_path ["block_nearest_neighbors"] out
     = Some (JDict [ ("Nearest neighbors", JStr "Nearest neighbors") ]).
Proof.
  intros H. apply build_ok_inv in H as (df & first & rest & -> & _ & H).
  apply output_for_ok_inv in H as (fit & rid & _ & _ & ->).
  split; [eexists; split; reflexivity|]. split; reflexivity.
Qed.

(** A lookup that succeeds for an id that is a binary64 number returns
    that id in the ribbon: it never answers with the id of another
    record. *)
Theorem found_id_is_requested_id (df : DataFrame) (n : Z) (out : json) :
  build_prediction_output (Present (Ok df)) n = Ok out ->
  exact_float n = true ->
  json_path ["block_ribbon"; "id"] out = Some (JInt n).
Proof.
  intros H Hx.
  apply build_ok_inv in H as (df0 & first & rest & [= <-] & Hsel & H).
  apply output_for_ok_inv in H as (fit & rid & _ & Hid & ->).
  apply select_eq_first in Hsel as [_ Hm].
  apply row_matches_cell in Hm as (c & Hc & nf & He & Hnf).
  assert (Hh : cell_holds c n).
  { eapply elem_eq_holds; [exact He | | exact Hx].
    intros Hd. apply Hnf. destruct (assoc "id" (schema df)) as [d|];
      [congruence | discriminate]. }
  rewrite (int_get_holds df "id" first c n n Hc Hh Hx) in Hid.
  injection Hid as <-. reflexivity.
Qed.

(** The [retrieved] mapping of a successful lookup has, for every column
    of the first matching row, that row's cell in JSON form: text and
    booleans unchanged, NaN and infinities as null, floats as written by
    [to_json]; an integer is either unchanged or, when the row is read as
    floats, the float of that integer. *)
Theorem retrieved_echoes_row (df : DataFrame) (n : Z) (out : json)
  (first : list cell) (rest : list (list cell)) (k : string) (c : cell) :
  build_prediction_output (Present (Ok df)) n = Ok out ->
  select_eq df "id" n = Ok (first :: rest) ->
  row_get df k first = Some c ->
  (json_path ["block_ribbon"; "retrieved"; k] out = Some (cell_to_json c)
   \/ json_path ["block_ribbon"; "retrieved"; k] out
      = Some (cell_to_json (to_float_cell c)))
  /\ ((forall z, c <> VInt z) ->
      json_path ["block_ribbon"; "retrieved"; k] out = Some (cell_to_json c)).
Proof.
  intros H Hsel Hc. rewrite (build_selected _ _ _ _ Hsel) in H.
  apply output_for_ok_inv in H as (fit & rid & _ & _ & ->).
  assert (E : json_path ["block_ribbon"; "retrieved"; k]
                (JDict
                   [ ("block_ribbon",
                      JDict [ ("id", JInt rid);
                              ("retrieved",
                               series_to_json
                                 (series_of_dict (row_to_dict df first))) ]);
                     ("block_middle_upper",
                      JDict [ ("is_fit", JInt fit);
                              ("key_factors", JStr key_factors_text) ]);
                     ("block_middle_lower",
                      JDict [ ("table_rows",
                               frame_to_json_records (head 10 df));
                              ("columns", JList (map JStr (columns df))) ]);
                     ("block_nearest_neighbors",
                      JDict [ ("Nearest neighbors",
                               JStr "Nearest neighbors") ]);
                     ("block_right",
                      JDict [ ("narrative",
                               JStr (narrative_text n fit)) ]) ])
              = option_map cell_to_json
                  (assoc k (series_of_dict (row_to_dict df first)))).
  { change (series_to_json (series_of_dict (row_to_dict df first)))
      with (JDict (map (on_value cell_to_json)
                     (series_of_dict (row_to_dict df first)))).
    cbn -[series_of_dict row_to_dict on_value].
    rewrite assoc_on_value.
    destruct (assoc k (series_of_dict (row_to_dict df first))); reflexivity. }
  rewrite E. clear E.
  assert (G : assoc k (series_of_dict (row_to_dict df first)) = Some c
              \/ assoc k (series_of_dict (row_to_dict df first))
                 = Some (to_float_cell c)).
  { destruct (series_of_dict_assoc (row_to_dict df first) k) as [E1|E1];
      destruct (row_to_dict_assoc df k first) as [E2|E2];
      rewrite E1, E2, Hc; simpl; auto.
    rewrite to_float_cell_twice. auto. }
  split.
  - destruct G as [-> | ->]; simpl; auto.
  - intros Hni. assert (T : to_float_cell c = c).
    { destruct c as [z| | |]; try reflexivity. now destruct (Hni z). }
    rewrite T in G. destruct G as [-> | ->]; reflexivity.
Qed.

End Results.

(* ------------------------------------------------------------------ *)
(** ** Tables at the edges *)

Lemma extended_records (df : DataFrame) (extra : list (list cell)) :
  (10 <= List.length (rows df))%nat ->
  head 10 {| schema := schema df; rows := rows df ++ extra |} = head 10 df.
Proof.
  intros H. unfold head. cbn [schema rows]. f_equal.
  rewrite firstn_app.
  replace (10 - List.length (rows df))%nat with O by lia.
  rewrite firstn_0. apply app_nil_r.
Qed.

Section Edges.
Context {rt : PyRuntime}.

(** Ids that were read as text never match: when the id column has the
    object dtype and every id cell is a string or is missing, every
    lookup, whatever the integer, raises "No record found". *)
Theorem text_ids_never_match (df : DataFrame) (n : Z) :
  assoc "id" (schema df) = Some Object ->
  (forall r, In r (rows df) ->
     (exists s, row_get df "id" r = Some (VStr s))
     \/ row_get df "id" r = Some (VFloat FNaN)) ->
  build_prediction_output (Present (Ok df)) n
  = Raise (ValueError ("No record found for id " ++ str_of_int n)%string).
Proof.
  intros Hd Hrows.
  rewrite build_on_frame by (eapply assoc_schema_has_column; eassumption).
  unfold select_eq. rewrite Hd. rewrite filter_none; [reflexivity|].
  intros r Hr. destruct (Hrows r Hr) as [[s ->] | ->]; reflexivity.
Qed.

(** On a table with an [id] column and no row, no lookup succeeds, and
    for every id that is a binary64 number the error is "No record
    found". *)
Theorem empty_table_finds_nothing (df : DataFrame) (n : Z) :
  rows df = [] ->
  has_column "id" df = true ->
  (exists e, build_prediction_output (Present (Ok df)) n = Raise e)
  /\ (exact_float n = true ->
      build_prediction_output (Present (Ok df)) n
      = Raise (ValueError ("No record found for id " ++ str_of_int n)%string)).
Proof.
  intros Hrows Hid. rewrite build_on_frame by assumption. split.
  - destruct (select_eq df "id" n) as [l|e] eqn:E; [|simpl; eauto].
    apply select_eq_filter in E. rewrite Hrows in E. subst l. simpl. eauto.
  - intros Hx. rewrite (select_eq_exact df n Hx), Hrows. reflexivity.
Qed.

Lemma appended_rows (df : DataFrame) (extra : list (list cell))
  (n : Z) (out : json) :
  (10 <= List.length (rows df))%nat ->
  build_prediction_output (Present (Ok df)) n = Ok out ->
  build_prediction_output
    (Present (Ok {| schema := schema df; rows := rows df ++ extra |})) n
  = Ok out.
Proof.
  intros Hlen H.
  apply build_ok_inv in H as (df0 & first & rest & [= <-] & Hsel & H).
  pose proof (select_eq_first _ _ _ _ _ Hsel) as [_ Hm].
  apply select_eq_filter in Hsel.
  set (df' := {| schema := schema df; rows := rows df ++ extra |}).
  assert (Hsel' : select_eq df' "id" n
                  = Ok (first :: rest
                        ++ filter (row_matches df "id" n) extra)).
  { rewrite (select_eq_matching df' n first Hm).
    change (rows df') with (rows df ++ extra).
    change (row_matches df' "id" n) with (row_matches df "id" n).
    rewrite filter_app, <- Hsel. reflexivity. }
  rewrite (build_selected _ _ _ _ Hsel'). rewrite <- H.
  unfold output_for, df'. rewrite extended_records by assumption.
  reflexivity.
Qed.

(** Let a longer file be read with the same column names and the same
    column dtypes as a file of at least ten rows, its rows being those of
    the shorter file followed by others.  Then every lookup that succeeds
    on the shorter file gives the same result on the longer one.  (Rows
    that change a dtype, such as an empty cell in an integer column or a
    text id, are not covered: [read_csv] infers the dtypes from the whole
    file.) *)
Theorem same_dtype_rows_change_nothing (df df' : DataFrame)
  (extra : list (list cell)) (n : Z) (out : json) :
  schema df' = schema df ->
  rows df' = rows df ++ extra ->
  (10 <= List.length (rows df))%nat ->
  build_prediction_output (Present (Ok df)) n = Ok out ->
  build_prediction_output (Present (Ok df')) n = Ok out.
Proof.
  intros Hs Hr Hlen H. destruct df' as [sch' rows']. simpl in Hs, Hr.
  subst sch' rows'. now apply appended_rows.
Qed.

Lemma output_unique_keys (df : DataFrame) (n : Z) (first : list cell)
  (out : json) :
  well_formed df = true -> In first (rows df) ->
  output_for df n first = Ok out ->
  unique_keys out = true.
Proof.
  intros Hwf Hin H. destruct (well_formed_inv df Hwf) as [Hn Hlen].
  apply output_for_ok_inv in H as (fit & rid & _ & _ & ->).
  set (d := series_of_dict (row_to_dict df first)).
  assert (Hnd : NoDup (map fst (series_items d))).
  { rewrite series_items_keys. unfold d. rewrite series_of_dict_keys.
    rewrite row_to_dict_keys; [assumption | now apply Hlen]. }
  change (series_to_json d) with (JDict (series_items d)).
  apply nodupb_NoDup in Hnd.
  cbn -[frame_to_json_records series_items nodupb columns].
  rewrite (records_unique_keys df Hwf).
  cbn -[series_items nodupb columns]. rewrite Hnd.
  rewrite (scalars_unique_keys _ (series_items_scalar d)).
  assert (Hc : forallb unique_keys (map JStr (columns df)) = true).
  { apply forallb_forall. intros x Hx.
    apply in_map_iff in Hx as (k & <- & _). reflexivity. }
  rewrite Hc. reflexivity.
Qed.

(** Whatever the request, the text [/on_predict] answers with is read
    back by a JSON parser as the body that was written, the members of
    its objects in key order (the table being one that [read_csv] can
    produce); an error body comes back exactly as written. *)
Theorem on_predict_text_reads_back (src : source) (id_param : option string) :
  (forall df, src = Present (Ok df) -> well_formed df = true) ->
  exists status body calls,
    on_predict src id_param = (JsonResponse status body, calls)
    /\ loads (dumps body) = Some (sorted_keys body)
    /\ (status = 400 ->
        exists msg, body = error_body msg
                    /\ loads (dumps body) = Some body).
Proof.
  intros Hwf.
  assert (E : forall (msg : string) (calls : list event),
    exists status body calls',
      (JsonResponse 400 (error_body msg), calls)
      = (JsonResponse status body, calls')
      /\ loads (dumps body) = Some (sorted_keys body)
      /\ (status = 400 ->
          exists msg', body = error_body msg'
                       /\ loads (dumps body) = Some body)).
  { intros msg calls. exists 400, (error_body msg), calls.
    split; [reflexivity|]. split; [reflexivity|].
    intros _. exists msg. split; reflexivity. }
  unfold on_predict. destruct id_param as [s|]; [|apply E].
  destruct (int_of_str s) as [n|]; [|apply E].
  destruct (build_prediction_output src n) as [out|e] eqn:Hb; [|apply E].
  exists 200, (JDict [ ("output", out) ]), [EvBuild n].
  split; [reflexivity|]. split; [|discriminate].
  apply loads_dumps.
  apply build_ok_inv in Hb as (df & first & rest & -> & Hsel & Hb).
  apply select_eq_first in Hsel as [Hin _].
  simpl. rewrite (output_unique_keys df n first out (Hwf df eq_refl) Hin Hb).
  reflexivity.
Qed.

End Edges.

(* ------------------------------------------------------------------ *)
(** ** Integer id columns *)

Lemma typed_cell (sch : list (string * dtype)) (r : list cell)
  (name : string) (d : dtype) (c : cell) :
  row_has_dtypes (map snd sch) r = true ->
  assoc name sch = Some d ->
  assoc name (combine (map fst sch) r) = Some c ->
  cell_has_dtype d c = true.
Proof.
  revert r. induction sch as [|[k x] sch IH]; intros [|c0 r]; simpl;
    try discriminate.
  intros H. apply andb_true_iff in H as [Hc Hr].
  destruct (name =? k)%string.
  - intros [= <-] [= <-]. exact Hc.
  - apply IH. exact Hr.
Qed.

Section IntegerIds.
Context {rt : PyRuntime}.

(** In a well-formed table whose id column is an int64 column, the row
    the lookup builds its result from carries exactly the requested id,
    whatever its magnitude: matching never rounds. *)
Theorem int_ids_match_exactly (df : DataFrame) (n : Z)
  (first : list cell) (rest : list (list cell)) :
  well_formed df = true ->
  assoc "id" (schema df) = Some Int64 ->
  select_eq df "id" n = Ok (first :: rest) ->
  row_get df "id" first = Some (VInt n)
  /\ build_prediction_output (Present (Ok df)) n = output_for df n first.
Proof.
  intros Hwf Hd Hsel. split; [|now apply (build_selected df n first rest)].
  apply select_eq_first in Hsel as [Hin Hm].
  apply row_matches_cell in Hm as (c & Hc & nf & He & _).
  rewrite Hd in He. rewrite Hc. f_equal.
  unfold well_formed in Hwf. apply andb_true_iff in Hwf as [_ Hrows].
  rewrite forallb_forall in Hrows. specialize (Hrows first Hin).
  pose proof (typed_cell (schema df) first "id" Int64 c Hrows Hd Hc) as Ht.
  destruct c as [z| | |]; simpl in Ht; try discriminate.
  simpl in He. apply Z.eqb_eq in He. now subst.
Qed.

End IntegerIds.

(* ------------------------------------------------------------------ *)
(** ** These properties on the sample tables *)

Lemma absent_file_on_every_endpoint_witness :
  int_of_str (PyRuntime := Sample.runtime) "2" = Some 2
  /\ exists msg,
       load_dataframe (rt := Sample.runtime) Absent
       = Raise (FileNotFoundError msg)
       /\ contains (CSV_PATH (rt := Sample.runtime)) msg
       /\ on_predict (rt := Sample.runtime) Absent (Some "2")
          = (JsonResponse 400 (error_body msg), [EvBuild 2])
       /\ result_page (rt := Sample.runtime) Absent (Some "2")
          = (Redirect index_url, [EvBuild 2])
       /\ index (rt := Sample.runtime) Absent = Raise (FileNotFoundError msg).
Proof.
  split; [reflexivity|].
  apply (absent_file_on_every_endpoint (rt := Sample.runtime) "2" 2).
  reflexivity.
Defined.

Lemma narrative_label_follows_flag_witness :
  build_prediction_output (rt := Sample.runtime)
    (Present (Ok Sample.graded_table)) 4 = Ok Sample.graded_output
  /\ exists flag text,
       json_path ["block_middle_upper"; "is_fit"] Sample.graded_output
       = Some (JInt flag)
       /\ json_path ["block_right"; "narrative"] Sample.graded_output
          = Some (JStr text)
       /\ (flag = 1
           <-> text = ("For the id " ++ str_of_int 4
                       ++ ", it is predicted as the person is fit")%string)
       /\ (flag <> 1
           <-> text = ("For the id " ++ str_of_int 4
                       ++ ", it is predicted as the person is not fit")%string).
Proof.
  split; [reflexivity|].
  apply (narrative_label_follows_flag (rt := Sample.runtime)
           (Present (Ok Sample.graded_table)) 4).
  reflexivity.
Defined.

Lemma static_blocks_witness :
  build_prediction_output (rt := Sample.runtime)
    (Present (Ok Sample.fit_table)) 1
  = Ok (Sample.output_of Sample.fit_table 1)
  /\ json_path ["block_middle_upper"; "is_fit"]
       (Sample.output_of Sample.fit_table 1) = Some (JInt 0)
  /\ json_path ["block_middle_upper"; "key_factors"]
       (Sample.output_of Sample.fit_table 1)
     = Some (JStr
         "I think the prediction was fit because of training frequency, cardio score, and diet consistency.").
Proof.
  split; [reflexivity|]. split; [reflexivity|].
  exact (proj1 (proj2 (static_blocks (rt := Sample.runtime)
                         (Present (Ok Sample.fit_table)) 1
                         (Sample.output_of Sample.fit_table 1) eq_refl))).
Defined.

Lemma found_id_is_requested_id_witness :
  build_prediction_output (rt := Sample.runtime)
    (Present (Ok Sample.twin_table)) 5 = Ok Sample.twin_output
  /\ exact_float 5 = true
  /\ json_path ["block_ribbon"; "id"] Sample.twin_output = Some (JInt 5).
Proof.
  split; [reflexivity|]. split; [reflexivity|].
  apply (found_id_is_requested_id (rt := Sample.runtime) Sample.twin_table 5);
    reflexivity.
Defined.

Lemma retrieved_echoes_row_witness :
  build_prediction_output (rt := Sample.runtime)
    (Present (Ok Ledger.nameless_table)) 3
  = Ok (Sample.output_of Ledger.nameless_table 3)
  /\ select_eq Ledger.nameless_table "id" 3 = Ok [ [VInt 3; VFloat FNaN] ]
  /\ row_get Ledger.nameless_table "name" [VInt 3; VFloat FNaN]
     = Some (VFloat FNaN)
  /\ json_path ["block_ribbon"; "retrieved"; "name"]
       (Sample.output_of Ledger.nameless_table 3)
     = Some JNull.
Proof.
  split; [reflexivity|]. split; [reflexivity|]. split; [reflexivity|].
  apply (proj2 (retrieved_echoes_row (rt := Sample.runtime)
                  Ledger.nameless_table 3
                  (Sample.output_of Ledger.nameless_table 3)
                  [VInt 3; VFloat FNaN] [] "name" (VFloat FNaN)
                  eq_refl eq_refl eq_refl)).
  intros z H. discriminate H.
Defined.

Lemma text_ids_never_match_witness :
  assoc "id" (schema Ledger.text_id_table) = Some Object
  /\ build_prediction_output (rt := Sample.runtime)
       (Present (Ok Ledger.text_id_table)) 7
     = Raise (ValueError "No record found for id 7").
Proof.
  split; [reflexivity|].
  apply (text_ids_never_match (rt := Sample.runtime) Ledger.text_id_table 7
           eq_refl).
  intros r [<- | [<- | []]]; left; eexists; reflexivity.
Defined.

Lemma empty_table_finds_nothing_witness :
  rows Ledger.empty_table = []
  /\ has_column "id" Ledger.empty_table = true
  /\ build_prediction_output (rt := Sample.runtime)
       (Present (Ok Ledger.empty_table)) 1
     = Raise (ValueError "No record found for id 1").
Proof.
  split; [reflexivity|]. split; [reflexivity|].
  exact (proj2 (empty_table_finds_nothing (rt := Sample.runtime)
                  Ledger.empty_table 1 eq_refl eq_refl) eq_refl).
Defined.

Lemma same_dtype_rows_change_nothing_witness :
  (10 <= List.length (rows Ledger.long_table))%nat
  /\ build_prediction_output (rt := Sample.runtime)
       (Present (Ok Ledger.long_table)) 4
     = Ok (Sample.output_of Ledger.long_table 4)
  /\ build_prediction_output (rt := Sample.runtime)
       (Present (Ok {| schema := schema Ledger.long_table;
                       rows := rows Ledger.long_table
                               ++ [ [VInt 11; VInt 0]; [VInt 4; VInt 0] ] |}))
       4
     = Ok (Sample.output_of Ledger.long_table 4).
Proof.
  assert (L : (10 <= List.length (rows Ledger.long_table))%nat)
    by (simpl; lia).
  split; [exact L|]. split; [reflexivity|].
  apply (same_dtype_rows_change_nothing (rt := Sample.runtime)
           Ledger.long_table
           {| schema := schema Ledger.long_table;
              rows := rows Ledger.long_table
                      ++ [ [VInt 11; VInt 0]; [VInt 4; VInt 0] ] |}
           [ [VInt 11; VInt 0]; [VInt 4; VInt 0] ] 4 _
           eq_refl eq_refl L).
  reflexivity.
Defined.

Lemma on_predict_text_reads_back_witness :
  well_formed Sample.fit_table = true
  /\ exists status body calls,
       on_predict (rt := Sample.runtime)
         (Present (Ok Sample.fit_table)) (Some "2")
       = (JsonResponse status body, calls)
       /\ loads (dumps body) = Some (sorted_keys body)
       /\ (status = 400 ->
           exists msg, body = error_body msg
                       /\ loads (dumps body) = Some body).
Proof.
  split; [reflexivity|].
  apply (on_predict_text_reads_back (rt := Sample.runtime)
           (Present (Ok Sample.fit_table)) (Some "2"%string)).
  intros df [= <-]. reflexivity.
Defined.

Lemma int_ids_match_exactly_witness :
  well_formed Sample.wide_table = true
  /\ assoc "id" (schema Sample.wide_table) = Some Int64
  /\ select_eq Sample.wide_table "id" 9007199254740993
     = Ok [ [VInt 9007199254740993; VFloat (FNum 3 (-1))] ]
  /\ row_get Sample.wide_table "id"
       [VInt 9007199254740993; VFloat (FNum 3 (-1))]
     = Some (VInt 9007199254740993).
Proof.
  split; [reflexivity|]. split; [reflexivity|]. split; [reflexivity|].
  exact (proj1 (int_ids_match_exactly (rt := Sample.runtime)
                  Sample.wide_table 9007199254740993
                  [VInt 9007199254740993; VFloat (FNum 3 (-1))] []
                  eq_refl eq_refl eq_refl)).
Defined.
